(** * alertmatter: the Alertmanager to Mattermost webhook bridge

    A shallow embedding of [handlers.go] and the properties of its
    formatter ([prepareMessage], [convertAlertToFields], [setColor]),
    forwarder ([sendToMattermost]) and HTTP handler ([handleAlert]).

    Go strings are byte strings ([string]); [map[string]string] is a
    [gmap string string] whose [range] order is supplied by the run;
    slices are lists.  Library calls whose code is outside the repository
    (Unicode case mapping, the JSON string encoder) are operations of the
    class [GoText]. *)

From Stdlib Require Import ZArith Ascii.
From stdpp Require Import base strings list gmap sorting.

(** ** Text helpers *)

(** The byte 0x0A, written [\n] in the Go source. *)
Definition nl : string := String "010"%char "".

(** The byte 0x22, the double quote of JSON text. *)
Definition dq : string := String "034"%char "".

(** Library text operations used by the handlers.
    - [strings_ToUpper] is [strings.ToUpper];
    - [cases_Title] is [cases.Title(language.Und, cases.NoLower).String];
    - [json_quote] is the string-literal encoder of [json.Marshal]
      (quotes included). *)
Class GoText := {
  strings_ToUpper : string → string;
  cases_Title : string → string;
  json_quote : string → string;
}.

(** ** Data model (the struct declarations of handlers.go) *)

Module Alert.
Record t := mk {
  Status : string;
  Labels : gmap string string;
  Annotations : gmap string string;
  StartsAt : string;
  EndsAt : string;
  GeneratorURL : string;
  Fingerprint : string;
}.
(** The Go zero value. *)
Definition zero : t := mk "" ∅ ∅ "" "" "" "".
End Alert.

Module AlertmanagerPayload.
Record t := mk {
  Receiver : string;
  Status : string;
  Alerts : list Alert.t;
  GroupLabels : gmap string string;
  CommonLabels : gmap string string;
  CommonAnnotations : gmap string string;
  ExternalURL : string;
  Version : string;
  GroupKey : string;
  TruncatedAlerts : Z;
}.
Definition zero : t := mk "" "" [] ∅ ∅ ∅ "" "" "" 0%Z.
End AlertmanagerPayload.

Module Field.
Record t := mk {
  Title : string;
  Value : string;
  Short : bool;
}.
End Field.

Module Attachment.
Record t := mk {
  Color : string;
  Text : string;
  Title : string;
  TitleLink : string;
  Fields : list Field.t;
}.
End Attachment.

Module MattermostMessage.
Record t := mk {
  Text : string;
  Username : string;
  IconEmoji : string;
  Attachments : list Attachment.t;
  Channel : string;
}.
End MattermostMessage.

Definition colorFiring : string := "#FF0000".
Definition colorResolved : string := "#008000".
Definition colorExpired : string := "#F0F8FF".

(** ** What one call of [convertAlertToFields] observes from the runtime

    Go leaves the iteration order of [range] over a map unspecified, and
    [time.Since(time.Now())] reads the clock twice.  A run therefore
    supplies, for each call: the order in which the two map loops yield
    their entries and the text durafmt renders for each elapsed time. *)
Record Observed := {
  annotationsRange : list string;
  labelsRange : list (string * string);
  sinceStarted : string;
  sinceEnded : string;
}.

(** A [range] loop yields every entry of the map exactly once. *)
Definition rangeOf (m : gmap string string) (entries : list (string * string)) : Prop :=
  entries ≡ₚ map_to_list m.

Definition keyRangeOf (m : gmap string string) (keys : list string) : Prop :=
  keys ≡ₚ (map_to_list m).*1.

Definition validObserved (alert : Alert.t) (o : Observed) : Prop :=
  keyRangeOf (Alert.Annotations alert) (annotationsRange o) ∧
  rangeOf (Alert.Labels alert) (labelsRange o).

(** ** The formatter *)

Definition setColor (status : string) : string :=
  if decide (status = "firing") then colorFiring
  else if decide (status = "resolved") then colorResolved
  else colorExpired.

(** [sort.Strings]: ascending order of Go's [<] on strings, which compares
    bytes; [String.le] is the same order. *)
Definition sort_Strings (a : list string) : list string :=
  merge_sort String.le a.

(** [m[k]] on a Go map: the zero value when the key is absent. *)
Definition index (m : gmap string string) (k : string) : string :=
  default "" (m !! k).

Section Formatter.
Context {text : GoText}.

(** [fmt.Sprintf("%s**%s:** %s\n", msg, title(k), v)] *)
Definition appendLine (msg k v : string) : string :=
  msg +:+ "**" +:+ cases_Title k +:+ ":** " +:+ v +:+ nl.

Definition convertAlertToFields (alert : Alert.t) (externalURL receiver : string)
    (o : Observed) : list Field.t :=
  let fields : list Field.t := [] in
  let statusMsg := strings_ToUpper (Alert.Status alert) in
  let statusMsg :=
    if decide (Alert.Status alert = "firing")
    then ":fire: " +:+ strings_ToUpper (Alert.Status alert) +:+ " :fire:"
    else statusMsg in
  (* Annotations, Start/End, Source *)
  let msg := "" in
  let annotations := foldl (λ annotations k, annotations ++ [k]) [] (annotationsRange o) in
  let annotations := sort_Strings annotations in
  let msg :=
    foldl (λ msg k, appendLine msg k (index (Alert.Annotations alert) k))
          msg annotations in
  let msg :=
    msg +:+ "**Started at:** " +:+ Alert.StartsAt alert
        +:+ " (" +:+ sinceStarted o +:+ " ago)" +:+ nl in
  let msg :=
    if decide (Alert.Status alert = "resolved")
    then msg +:+ "**Ended at:** " +:+ Alert.EndsAt alert
             +:+ " (" +:+ sinceEnded o +:+ " ago)" +:+ nl
    else msg in
  let msg :=
    msg +:+ "Generated by a [Prometheus Alert](" +:+ Alert.GeneratorURL alert
        +:+ ") and sent to the [Alertmanager](" +:+ externalURL
        +:+ ") '" +:+ receiver +:+ "' receiver." in
  let fields := fields ++ [Field.mk statusMsg msg true] in
  (* Labels *)
  let msg := "" in
  let msg := foldl (λ msg kv, appendLine msg kv.1 kv.2) msg (labelsRange o) in
  let fields := fields ++ [Field.mk "" msg true] in
  fields.

(** The body of the loop of [prepareMessage] for one alert. *)
Definition attachmentOf (payload : AlertmanagerPayload.t) (alert : Alert.t)
    (o : Observed) : Attachment.t :=
  {| Attachment.Color := setColor (Alert.Status alert);
     Attachment.Text := "";
     Attachment.Title := "";
     Attachment.TitleLink := "";
     Attachment.Fields :=
       convertAlertToFields alert (AlertmanagerPayload.ExternalURL payload)
                            (AlertmanagerPayload.Receiver payload) o |}.

(** [obs i] is what the [i]-th iteration of the loop observes. *)
Definition prepareMessage (payload : AlertmanagerPayload.t) (channel : string)
    (obs : nat → Observed) : MattermostMessage.t :=
  let attachments : list Attachment.t := [] in
  let '(_, attachments) :=
    foldl (λ '(i, attachments) alert,
             (S i, attachments ++ [attachmentOf payload alert (obs i)]))
          (0%nat, attachments) (AlertmanagerPayload.Alerts payload) in
  {| MattermostMessage.Text := "";
     MattermostMessage.Username := "alertmatter";
     MattermostMessage.IconEmoji := ":bell:";
     MattermostMessage.Attachments := attachments;
     MattermostMessage.Channel := channel |}.
End Formatter.

(** ** The parts of the formatted text

    Names for the pieces the [Sprintf] calls of [convertAlertToFields] put
    together; the properties below are stated with them. *)

(** [a] comes strictly before [b] in the byte-wise lexicographic order. *)
Definition strictlyBefore (a b : string) : Prop := String.compare a b = Lt.

(** The keys of a map in ascending order. *)
Definition sortedKeys (m : gmap string string) : list string :=
  sort_Strings (map_to_list m).*1.

(** Concatenation of a list of texts. *)
Definition concatText (parts : list string) : string := foldr String.append "" parts.

Section Parts.
Context {text : GoText}.

(** The line of one key and value. *)
Definition lineOf (k v : string) : string :=
  "**" +:+ cases_Title k +:+ ":** " +:+ v +:+ nl.

Definition annotationLine (alert : Alert.t) (k : string) : string :=
  lineOf k (index (Alert.Annotations alert) k).

Definition startedLine (alert : Alert.t) (o : Observed) : string :=
  "**Started at:** " +:+ Alert.StartsAt alert +:+ " (" +:+ sinceStarted o +:+ " ago)" +:+ nl.

Definition endedLine (alert : Alert.t) (o : Observed) : string :=
  "**Ended at:** " +:+ Alert.EndsAt alert +:+ " (" +:+ sinceEnded o +:+ " ago)" +:+ nl.

Definition trailer (alert : Alert.t) (externalURL receiver : string) : string :=
  "Generated by a [Prometheus Alert](" +:+ Alert.GeneratorURL alert
    +:+ ") and sent to the [Alertmanager](" +:+ externalURL
    +:+ ") '" +:+ receiver +:+ "' receiver.".

(** The primary field: the first of the two fields of an alert. *)
Definition primaryField (alert : Alert.t) (externalURL receiver : string)
    (o : Observed) : option Field.t :=
  convertAlertToFields alert externalURL receiver o !! 0%nat.

End Parts.

(** [strings.Contains(s, substr)]. *)
Fixpoint Contains (s substr : string) : bool :=
  String.prefix substr s ||
  match s with
  | "" => false
  | String _ rest => Contains rest substr
  end.

(** Some line of [s] begins with [p]: [p] occurs in [s] at its start or
    right after a newline. *)
Fixpoint hasLineFrom (atLineStart : bool) (p s : string) : bool :=
  (atLineStart && String.prefix p s) ||
  match s with
  | "" => false
  | String c rest => hasLineFrom (bool_decide (c = "010"%char)) p rest
  end.
Definition hasLine (p s : string) : bool := hasLineFrom true p s.

(** No byte of [s] is a newline. *)
Fixpoint singleLine (s : string) : bool :=
  match s with
  | "" => true
  | String c rest => negb (bool_decide (c = "010"%char)) && singleLine rest
  end.

(** The position after [s] is the start of a line, given whether the
    position before [s] was. *)
Fixpoint endsLine (atLineStart : bool) (s : string) : bool :=
  match s with
  | "" => atLineStart
  | String c rest => endsLine (bool_decide (c = "010"%char)) rest
  end.

(** The texts the formatter copies into the primary field are single
    lines, and no annotation key is rendered as a text that begins with
    [Ended at]. *)
Definition plainTexts {text : GoText} (alert : Alert.t) (externalURL receiver : string)
    (o : Observed) : Prop :=
  map_Forall (λ k v, singleLine (cases_Title k) = true ∧ singleLine v = true ∧
                     String.prefix "Ended at" (cases_Title k) = false)
             (Alert.Annotations alert) ∧
  singleLine (Alert.StartsAt alert) = true ∧
  singleLine (sinceStarted o) = true ∧
  singleLine (Alert.GeneratorURL alert) = true ∧
  singleLine externalURL = true ∧
  singleLine receiver = true.

(** ** JSON encoding of the outbound message ([json.Marshal])

    Struct fields are written in declaration order under their [json] tags.
    The two slices that reach [json.Marshal] are never nil ([prepareMessage]
    allocates with [make], [convertAlertToFields] appends twice), so each
    is written as a bracketed array.  Marshalling these types cannot
    fail. *)

Section Marshal.
Context {text : GoText}.

Definition jsonKey (name : string) : string := dq +:+ name +:+ dq +:+ ":".

Definition jsonBool (b : bool) : string := if b then "true" else "false".

Definition jsonArray (elems : list string) : string :=
  "[" +:+ String.concat "," elems +:+ "]".

Definition marshalField (f : Field.t) : string :=
  "{" +:+ jsonKey "title" +:+ json_quote (Field.Title f)
      +:+ "," +:+ jsonKey "value" +:+ json_quote (Field.Value f)
      +:+ "," +:+ jsonKey "short" +:+ jsonBool (Field.Short f) +:+ "}".

Definition marshalAttachment (a : Attachment.t) : string :=
  "{" +:+ jsonKey "color" +:+ json_quote (Attachment.Color a)
      +:+ "," +:+ jsonKey "text" +:+ json_quote (Attachment.Text a)
      +:+ "," +:+ jsonKey "title" +:+ json_quote (Attachment.Title a)
      +:+ "," +:+ jsonKey "title_link" +:+ json_quote (Attachment.TitleLink a)
      +:+ "," +:+ jsonKey "fields"
      +:+ jsonArray (marshalField <$> Attachment.Fields a) +:+ "}".

Definition Marshal (m : MattermostMessage.t) : string :=
  "{" +:+ jsonKey "text" +:+ json_quote (MattermostMessage.Text m)
      +:+ "," +:+ jsonKey "username" +:+ json_quote (MattermostMessage.Username m)
      +:+ "," +:+ jsonKey "icon_emoji" +:+ json_quote (MattermostMessage.IconEmoji m)
      +:+ "," +:+ jsonKey "attachments"
      +:+ jsonArray (marshalAttachment <$> MattermostMessage.Attachments m)
      +:+ "," +:+ jsonKey "channel" +:+ json_quote (MattermostMessage.Channel m)
      +:+ "}".
End Marshal.

(** ** JSON decoding of the request body ([json.NewDecoder(r.Body).Decode])

    The byte-level scanner of encoding/json is not modelled: a request
    carries what the scanner makes of its body, either a syntax error
    (with the text of the error; an empty body is one, [EOF]) or the
    first JSON value of the stream.  Filling the Go structs from that
    value follows the declarations of handlers.go. *)

#[local] Unset Elimination Schemes.
Inductive json :=
| JNull
| JBool (b : bool)
| JNumber (literal : string)
| JString (s : string)
| JArray (elems : list json)
| JObject (members : list (string * json)).
#[local] Set Elimination Schemes.

Inductive Scanned :=
| SyntaxError (err : string)
| Value (v : json).

(** A decoding result: [inl] carries [err.Error()]. *)
Definition Result (A : Type) : Type := string + A.

#[global] Instance Result_ret : MRet Result := λ A a, inr a.
#[global] Instance Result_bind : MBind Result :=
  λ A B k r, match r with inl e => inl e | inr a => k a end.

Definition kindOf (v : json) : string :=
  match v with
  | JNull => "null"
  | JBool _ => "bool"
  | JNumber _ => "number"
  | JString _ => "string"
  | JArray _ => "array"
  | JObject _ => "object"
  end.

(** The text of a [json.UnmarshalTypeError]. *)
Definition typeError {A} (value type target : string) : Result A :=
  inl ("json: cannot unmarshal " +:+ value +:+ " into " +:+ target
       +:+ " of type " +:+ type).

Fixpoint parseDigits (s : string) (acc : Z) : option Z :=
  match s with
  | "" => Some acc
  | String c rest =>
      match Ascii.is_nat c with
      | Some d => parseDigits rest (10 * acc + Z.of_nat d)
      | None => None
      end
  end.

(** [strconv.ParseInt(lit, 10, 64)] on a JSON number literal. *)
Definition parseInt (lit : string) : option Z :=
  let '(neg, ds) :=
    match lit with
    | String "-"%char rest => (true, rest)
    | _ => (false, lit)
    end in
  if decide (ds = "") then None
  else match parseDigits ds 0 with
       | Some n =>
           let n := if neg : bool then (- n)%Z else n in
           if decide (- 2 ^ 63 ≤ n < 2 ^ 63)%Z then Some n else None
       | None => None
       end.

Definition decodeString (target : string) (v : json) (old : string) : Result string :=
  match v with
  | JNull => inr old
  | JString s => inr s
  | _ => typeError (kindOf v) "string" target
  end.

Definition decodeInt (target : string) (v : json) (old : Z) : Result Z :=
  match v with
  | JNull => inr old
  | JNumber lit =>
      match parseInt lit with
      | Some n => inr n
      | None => typeError ("number " +:+ lit) "int" target
      end
  | _ => typeError (kindOf v) "int" target
  end.

(** A JSON object decoded into a [map[string]string]: the entries are added
    to the map already there; [null] sets the map to nil. *)
Definition decodeStringMap (target : string) (v : json) (old : gmap string string)
    : Result (gmap string string) :=
  match v with
  | JNull => inr ∅
  | JObject members =>
      foldl (λ (acc : Result (gmap string string)) kv,
               m ← acc;
               s ← decodeString target kv.2 "";
               mret (<[kv.1 := s]> m))
            (inr old) members
  | _ => typeError (kindOf v) "map[string]string" target
  end.

(** Case folding of an object key, as encoding/json compares it with a
    field name: ASCII letters fold to upper case, and so do the two
    non-ASCII runes whose case orbit contains an ASCII letter, U+017F
    (bytes C5 BF, to S) and U+212A (bytes E2 84 AA, to K).  The names of
    handlers.go are ASCII, and against an ASCII name this comparison is
    Go's. *)
Definition upperByte (c : ascii) : ascii :=
  let n := nat_of_ascii c in
  if decide (97 ≤ n ≤ 122)%nat then ascii_of_nat (n - 32) else c.

Fixpoint foldName (s : string) : string :=
  match s with
  | "" => ""
  | String c rest =>
      match c, rest with
      | "197"%char, String "191"%char rest' => String "S"%char (foldName rest')
      | "226"%char, String "132"%char (String "170"%char rest') =>
          String "K"%char (foldName rest')
      | _, _ => String (upperByte c) (foldName rest)
      end
  end.

(** A struct field as the decoder sees it: its [json] tag and how a value
    is stored into it. *)
Definition FieldDecoder (T : Type) : Type := string * (json → T → Result T).

(** The field an object key selects: an exact match of the tag first, a
    case-insensitive one otherwise. *)
Definition lookupField {T} (fields : list (FieldDecoder T)) (key : string)
    : option (FieldDecoder T) :=
  match List.find (λ f, bool_decide (f.1 = key)) fields with
  | Some f => Some f
  | None => List.find (λ f, bool_decide (foldName f.1 = foldName key)) fields
  end.

(** A JSON value decoded into a struct: [null] leaves it as it is, an
    object stores each member whose key selects a field and skips the
    others, anything else is a type error. *)
Definition decodeStruct {T} (type : string) (fields : list (FieldDecoder T))
    (v : json) (old : T) : Result T :=
  match v with
  | JNull => inr old
  | JObject members =>
      foldl (λ (acc : Result T) kv,
               t ← acc;
               match lookupField fields kv.1 with
               | Some f => f.2 kv.2 t
               | None => mret t
               end)
            (inr old) members
  | _ => typeError (kindOf v) type "Go value"
  end.

Definition alertFields : list (FieldDecoder Alert.t) :=
  [ ("status", λ v a,
       x ← decodeString "Go struct field Alert.status" v (Alert.Status a);
       mret (Alert.mk x (Alert.Labels a) (Alert.Annotations a) (Alert.StartsAt a)
                      (Alert.EndsAt a) (Alert.GeneratorURL a) (Alert.Fingerprint a)));
    ("labels", λ v a,
       x ← decodeStringMap "Go struct field Alert.labels" v (Alert.Labels a);
       mret (Alert.mk (Alert.Status a) x (Alert.Annotations a) (Alert.StartsAt a)
                      (Alert.EndsAt a) (Alert.GeneratorURL a) (Alert.Fingerprint a)));
    ("annotations", λ v a,
       x ← decodeStringMap "Go struct field Alert.annotations" v (Alert.Annotations a);
       mret (Alert.mk (Alert.Status a) (Alert.Labels a) x (Alert.StartsAt a)
                      (Alert.EndsAt a) (Alert.GeneratorURL a) (Alert.Fingerprint a)));
    ("startsAt", λ v a,
       x ← decodeString "Go struct field Alert.startsAt" v (Alert.StartsAt a);
       mret (Alert.mk (Alert.Status a) (Alert.Labels a) (Alert.Annotations a) x
                      (Alert.EndsAt a) (Alert.GeneratorURL a) (Alert.Fingerprint a)));
    ("endsAt", λ v a,
       x ← decodeString "Go struct field Alert.endsAt" v (Alert.EndsAt a);
       mret (Alert.mk (Alert.Status a) (Alert.Labels a) (Alert.Annotations a)
                      (Alert.StartsAt a) x (Alert.GeneratorURL a) (Alert.Fingerprint a)));
    ("generatorURL", λ v a,
       x ← decodeString "Go struct field Alert.generatorURL" v (Alert.GeneratorURL a);
       mret (Alert.mk (Alert.Status a) (Alert.Labels a) (Alert.Annotations a)
                      (Alert.StartsAt a) (Alert.EndsAt a) x (Alert.Fingerprint a)));
    ("fingerprint", λ v a,
       x ← decodeString "Go struct field Alert.fingerprint" v (Alert.Fingerprint a);
       mret (Alert.mk (Alert.Status a) (Alert.Labels a) (Alert.Annotations a)
                      (Alert.StartsAt a) (Alert.EndsAt a) (Alert.GeneratorURL a) x)) ].

(** A JSON array decoded into [[]Alert]: the slice is reset and every
    element is decoded into a zero [Alert]; [null] sets the slice to nil. *)
Definition decodeAlerts (target : string) (v : json) (old : list Alert.t)
    : Result (list Alert.t) :=
  match v with
  | JNull => inr []
  | JArray elems =>
      foldl (λ (acc : Result (list Alert.t)) e,
               alerts ← acc;
               a ← decodeStruct "main.Alert" alertFields e Alert.zero;
               mret (alerts ++ [a]))
            (inr []) elems
  | _ => typeError (kindOf v) "[]main.Alert" target
  end.

Module Payload := AlertmanagerPayload.

Definition payloadFields : list (FieldDecoder Payload.t) :=
  [ ("receiver", λ v p,
       x ← decodeString "Go struct field AlertmanagerPayload.receiver" v (Payload.Receiver p);
       mret (Payload.mk x (Payload.Status p) (Payload.Alerts p) (Payload.GroupLabels p)
               (Payload.CommonLabels p) (Payload.CommonAnnotations p) (Payload.ExternalURL p)
               (Payload.Version p) (Payload.GroupKey p) (Payload.TruncatedAlerts p)));
    ("status", λ v p,
       x ← decodeString "Go struct field AlertmanagerPayload.status" v (Payload.Status p);
       mret (Payload.mk (Payload.Receiver p) x (Payload.Alerts p) (Payload.GroupLabels p)
               (Payload.CommonLabels p) (Payload.CommonAnnotations p) (Payload.ExternalURL p)
               (Payload.Version p) (Payload.GroupKey p) (Payload.TruncatedAlerts p)));
    ("alerts", λ v p,
       x ← decodeAlerts "Go struct field AlertmanagerPayload.alerts" v (Payload.Alerts p);
       mret (Payload.mk (Payload.Receiver p) (Payload.Status p) x (Payload.GroupLabels p)
               (Payload.CommonLabels p) (Payload.CommonAnnotations p) (Payload.ExternalURL p)
               (Payload.Version p) (Payload.GroupKey p) (Payload.TruncatedAlerts p)));
    ("groupLabels", λ v p,
       x ← decodeStringMap "Go struct field AlertmanagerPayload.groupLabels" v
             (Payload.GroupLabels p);
       mret (Payload.mk (Payload.Receiver p) (Payload.Status p) (Payload.Alerts p) x
               (Payload.CommonLabels p) (Payload.CommonAnnotations p) (Payload.ExternalURL p)
               (Payload.Version p) (Payload.GroupKey p) (Payload.TruncatedAlerts p)));
    ("commonLabels", λ v p,
       x ← decodeStringMap "Go struct field AlertmanagerPayload.commonLabels" v
             (Payload.CommonLabels p);
       mret (Payload.mk (Payload.Receiver p) (Payload.Status p) (Payload.Alerts p)
               (Payload.GroupLabels p) x (Payload.CommonAnnotations p) (Payload.ExternalURL p)
               (Payload.Version p) (Payload.GroupKey p) (Payload.TruncatedAlerts p)));
    ("commonAnnotations", λ v p,
       x ← decodeStringMap "Go struct field AlertmanagerPayload.commonAnnotations" v
             (Payload.CommonAnnotations p);
       mret (Payload.mk (Payload.Receiver p) (Payload.Status p) (Payload.Alerts p)
               (Payload.GroupLabels p) (Payload.CommonLabels p) x (Payload.ExternalURL p)
               (Payload.Version p) (Payload.GroupKey p) (Payload.TruncatedAlerts p)));
    ("externalURL", λ v p,
       x ← decodeString "Go struct field AlertmanagerPayload.externalURL" v
             (Payload.ExternalURL p);
       mret (Payload.mk (Payload.Receiver p) (Payload.Status p) (Payload.Alerts p)
               (Payload.GroupLabels p) (Payload.CommonLabels p) (Payload.CommonAnnotations p) x
               (Payload.Version p) (Payload.GroupKey p) (Payload.TruncatedAlerts p)));
    ("version", λ v p,
       x ← decodeString "Go struct field AlertmanagerPayload.version" v (Payload.Version p);
       mret (Payload.mk (Payload.Receiver p) (Payload.Status p) (Payload.Alerts p)
               (Payload.GroupLabels p) (Payload.CommonLabels p) (Payload.CommonAnnotations p)
               (Payload.ExternalURL p) x (Payload.GroupKey p) (Payload.TruncatedAlerts p)));
    ("groupKey", λ v p,
       x ← decodeString "Go struct field AlertmanagerPayload.groupKey" v (Payload.GroupKey p);
       mret (Payload.mk (Payload.Receiver p) (Payload.Status p) (Payload.Alerts p)
               (Payload.GroupLabels p) (Payload.CommonLabels p) (Payload.CommonAnnotations p)
               (Payload.ExternalURL p) (Payload.Version p) x (Payload.TruncatedAlerts p)));
    ("truncatedAlerts", λ v p,
       x ← decodeInt "Go struct field AlertmanagerPayload.truncatedAlerts" v
             (Payload.TruncatedAlerts p);
       mret (Payload.mk (Payload.Receiver p) (Payload.Status p) (Payload.Alerts p)
               (Payload.GroupLabels p) (Payload.CommonLabels p) (Payload.CommonAnnotations p)
               (Payload.ExternalURL p) (Payload.Version p) (Payload.GroupKey p) x)) ].

(** [var payload AlertmanagerPayload; json.NewDecoder(r.Body).Decode(&payload)]:
    the error, or the payload filled from its zero value. *)
Definition Decode (body : Scanned) : Result Payload.t :=
  match body with
  | SyntaxError err => inl err
  | Value v => decodeStruct "main.AlertmanagerPayload" payloadFields v Payload.zero
  end.

(** ** The HTTP side

    A computation returns a value together with the events it caused, in
    order: log records and outbound [http.Post] calls. *)

Inductive Level := LevelInfo | LevelError.

Inductive Event :=
| Log (level : Level) (msg : string) (attrs : list (string * string))
| Post (url contentType body : string).

(** What [http.Post] returns: a non-nil error (with its text), or the
    response's [StatusCode] and [Status]. *)
Inductive PostResult :=
| PostError (err : string)
| PostResponse (StatusCode : Z) (Status : string).

Definition IO (A : Type) : Type := A * list Event.

#[global] Instance IO_ret : MRet IO := λ A a, (a, []).
#[global] Instance IO_bind : MBind IO :=
  λ A B k m, let '(b, evs) := k m.1 in (b, m.2 ++ evs).

Definition logger_Info (msg : string) (attrs : list (string * string)) : IO unit :=
  (tt, [Log LevelInfo msg attrs]).
Definition logger_Error (msg : string) (attrs : list (string * string)) : IO unit :=
  (tt, [Log LevelError msg attrs]).

(** The value returned and the outbound posts among the events. *)
Definition result {A} (m : IO A) : A := m.1.
Definition events {A} (m : IO A) : list Event := m.2.
Definition posts {A} (m : IO A) : list (string * string * string) :=
  omap (λ e, match e with Post u c b => Some (u, c, b) | Log _ _ _ => None end) (events m).

Module Request.
Record t := mk {
  Method : string;
  (** The pairs of [r.URL.Query()], in the order of the query string. *)
  Query : list (string * string);
  Body : Scanned;
}.
End Request.

Module Response.
Record t := mk {
  StatusCode : Z;
  Body : string;
}.
End Response.

(** [url.Values.Get]: the first value of the key, or the empty string. *)
Definition Query_Get (query : list (string * string)) (key : string) : string :=
  match List.find (λ kv, bool_decide (kv.1 = key)) query with
  | Some kv => kv.2
  | None => ""
  end.

(** [http.Error(w, msg, code)]: the status and the message on a line. *)
Definition http_Error (msg : string) (code : Z) : Response.t :=
  Response.mk code (msg +:+ nl).

Definition StatusOK : Z := 200.
Definition StatusBadRequest : Z := 400.
Definition StatusMethodNotAllowed : Z := 405.
Definition StatusInternalServerError : Z := 500.

Section Handlers.
Context {text : GoText}.

(** The destination: what [http.Post] returns for a URL, content type
    and body. *)
Variable http_Post : string → string → string → PostResult.
(** The [-webhook-url] flag. *)
Variable mattermostURL : string.
(** What the formatter observes during this request. *)
Variable obs : nat → Observed.

(** Returns [None] for Go's nil error, [Some] of the error's text
    otherwise.  [json.Marshal] cannot fail on a [MattermostMessage]
    (strings, booleans and slices of structs of those), so its error
    branch is left out. *)
Definition sendToMattermost (mmMessage : MattermostMessage.t) (url : string)
    : IO (option string) :=
  let jsonData := Marshal mmMessage in
  resp ← ((http_Post url "application/json" jsonData,
           [Post url "application/json" jsonData]) : IO PostResult);
  match resp with
  | PostError err =>
      _ ← logger_Error "Error sending request to Mattermost" [("err", err)];
      mret (Some err)
  | PostResponse StatusCode Status =>
      if decide (StatusCode ≠ StatusOK)
      then mret (Some ("received non-OK response from Mattermost: " +:+ Status))
      else mret None
  end.

Definition handleAlert (r : Request.t) : IO Response.t :=
  if decide (Request.Method r ≠ "POST")
  then mret (http_Error "Method Not Allowed" StatusMethodNotAllowed)
  else
    let channel := Query_Get (Request.Query r) "channel" in
    if decide (channel = "")
    then mret (http_Error "channel query parameter is required" StatusBadRequest)
    else
      match Decode (Request.Body r) with
      | inl err => mret (http_Error err StatusBadRequest)
      | inr payload =>
          _ ← logger_Info "Received alert notification" [("channel", channel)];
          let mmMessage := prepareMessage payload channel obs in
          err ← sendToMattermost mmMessage mattermostURL;
          match err with
          | Some err =>
              _ ← logger_Error "Failed to send to Mattermost" [("err", err)];
              mret (http_Error err StatusInternalServerError)
          | None => mret (Response.mk StatusOK "")
          end
      end.
End Handlers.

(** ** Reference text operations on ASCII

    Executable instances of the library operations, used to evaluate the
    handlers on concrete requests.  On the inputs evaluated below (ASCII
    letters, digits, punctuation and spaces) they compute what the Go
    libraries compute. *)

Fixpoint asciiToUpper (s : string) : string :=
  match s with
  | "" => ""
  | String c rest => String (upperByte c) (asciiToUpper rest)
  end.

(** Upper-cases the first byte of every space-separated word; the other
    bytes are kept ([cases.NoLower]). *)
Fixpoint asciiTitleFrom (atStart : bool) (s : string) : string :=
  match s with
  | "" => ""
  | String c rest =>
      String (if atStart then upperByte c else c)
             (asciiTitleFrom (bool_decide (c = " "%char)) rest)
  end.
Definition asciiTitle (s : string) : string := asciiTitleFrom true s.

Fixpoint asciiEscape (s : string) : string :=
  match s with
  | "" => ""
  | String c rest =>
      (if decide (c = "034"%char) then "\" +:+ dq
       else if decide (c = "\"%char) then "\\"
       else if decide (c = "010"%char) then "\n"
       else String c "") +:+ asciiEscape rest
  end.
Definition asciiQuote (s : string) : string := dq +:+ asciiEscape s +:+ dq.

Definition asciiText : GoText :=
  {| strings_ToUpper := asciiToUpper;
     cases_Title := asciiTitle;
     json_quote := asciiQuote |}.

(** A run that ranges over both maps in the order [map_to_list] lists
    them and measures an elapsed time that durafmt renders as [ago]. *)
Definition observeStored (ago : string) (alert : Alert.t) : Observed :=
  {| annotationsRange := (map_to_list (Alert.Annotations alert)).*1;
     labelsRange := map_to_list (Alert.Labels alert);
     sinceStarted := ago;
     sinceEnded := ago |}.

(** ** Example inputs *)

(** A firing alert one of whose annotation values spans two lines. *)
Definition injectedAlert : Alert.t :=
  Alert.mk "firing" ∅ {[ "note" := "disk full" +:+ nl +:+ "**Ended at:** never" ]}
           "2024-01-01T00:00:00Z" "" "http://x" "abc".

(** A resolved alert with two annotations and one label. *)
Definition resolvedAlert : Alert.t :=
  Alert.mk "resolved" {[ "alertname" := "HighCPU" ]}
           {[ "summary" := "CPU high"; "description" := "load above 90%" ]}
           "2024-01-01T00:00:00Z" "2024-01-01T01:00:00Z" "http://x" "abc".

(** A firing alert with two labels, the payload that carries it, and two
    runs that differ only in the order the [range] over the labels
    yields them; a third run measures another elapsed time. *)
Definition twoLabelAlert : Alert.t :=
  Alert.mk "firing" {[ "alertname" := "HighCPU"; "zone" := "a" ]} ∅
           "2024-01-01T00:00:00Z" "" "http://x" "abc".

Definition twoLabelPayload : Payload.t :=
  Payload.mk "r1" "firing" [twoLabelAlert] ∅ ∅ ∅ "http://am" "4" "" 0%Z.

Definition alertnameFirst : Observed :=
  {| annotationsRange := [];
     labelsRange := [("alertname", "HighCPU"); ("zone", "a")];
     sinceStarted := "";
     sinceEnded := "" |}.

Definition zoneFirst : Observed :=
  {| annotationsRange := [];
     labelsRange := [("zone", "a"); ("alertname", "HighCPU")];
     sinceStarted := "";
     sinceEnded := "" |}.

Definition alertnameFirstLater : Observed :=
  {| annotationsRange := [];
     labelsRange := [("alertname", "HighCPU"); ("zone", "a")];
     sinceStarted := "2 microseconds";
     sinceEnded := "" |}.

(** Destinations: one that answers every post with 204, one that answers
    200, and one that cannot be reached. *)
Definition answers204 : string → string → string → PostResult :=
  λ _ _ _, PostResponse 204 "204 No Content".

Definition answers200 : string → string → string → PostResult :=
  λ _ _ _, PostResponse 200 "200 OK".

Definition unreachable : string → string → string → PostResult :=
  λ url _ _, PostError ("Post " +:+ url +:+ ": dial tcp: connection refused").

Definition webhookURL : string := "http://mattermost.internal".

(** A run whose loops yield nothing and whose elapsed times render as the
    empty text. *)
Definition quietRun : nat → Observed :=
  λ _, {| annotationsRange := []; labelsRange := []; sinceStarted := ""; sinceEnded := "" |}.

(** A POST to [/alert?channel=ops] whose body is [null]. *)
Definition nullRequest : Request.t :=
  Request.mk "POST" [("channel", "ops")] (Value JNull).

(** A POST to [/alert?channel=ops] whose body is an object with no field
    of the payload. *)
Definition fieldlessRequest : Request.t :=
  Request.mk "POST" [("channel", "ops")]
             (Value (JObject [("foo", JNumber "1"); ("alert", JArray [JNull])])).



(** A GET of [/alert], without a channel. *)
Definition getWithoutChannel : Request.t :=
  Request.mk "GET" [] (SyntaxError "EOF").


(** The request of the worked example: a POST to [/alert?channel=ops] with
    one firing alert, one label and one annotation. *)
Definition highCPURequest : Request.t :=
  Request.mk "POST" [("channel", "ops")]
    (Value (JObject
       [("status", JString "firing");
        ("alerts", JArray
           [JObject [("status", JString "firing");
                     ("labels", JObject [("alertname", JString "HighCPU")]);
                     ("annotations", JObject [("summary", JString "CPU high")]);
                     ("startsAt", JString "2024-01-01T00:00:00Z");
                     ("generatorURL", JString "http://x");
                     ("fingerprint", JString "abc")]]);
        ("receiver", JString "r1"); ("externalURL", JString "http://am")])).

Definition highCPURun : nat → Observed :=
  λ _, {| annotationsRange := ["summary"];
          labelsRange := [("alertname", "HighCPU")];
          sinceStarted := "";
          sinceEnded := "" |}.

(** ** Start-up ([initLogger], [init] and [main] of main.go)

    The package variables are a record that [init] fills and
    [flag.Parse] updates.  The command line is what the [flag] package
    makes of it: a request for help, a line it rejects, or the flag
    settings in the order they are written. *)

Module Main.

(** The value of the [slog.LevelVar] the logger's handler reads. *)
Inductive LevelVar := LevelDebug | LevelInfo.

Record Globals := mkGlobals {
  serverAddr : string;
  mattermostURL : string;
  verbose : bool;
  logger : LevelVar;
}.

(** [new(slog.LevelVar)] is Info; it is set to Debug when [verbose]. *)
Definition initLogger (verbose : bool) : LevelVar :=
  let lvl := LevelInfo in
  let lvl := if verbose then LevelDebug else lvl in
  lvl.

(** [init]: each [flag.XxxVar] stores the default in its variable, then the
    logger is built from [verbose] as it is at that moment. *)
Definition init : Globals :=
  let serverAddr := ":8080" in
  let mattermostURL := "http://mattermost.internal" in
  let verbose := false in
  let logger := initLogger verbose in
  mkGlobals serverAddr mattermostURL verbose logger.

Inductive Setting :=
| addr (value : string)
| webhook_url (value : string)
| verbose_flag (value : bool).

Inductive CommandLine :=
| HelpRequested
| Rejected
| Settings (settings : list Setting).

(** One flag of the command line stored in its variable. *)
Definition store (g : Globals) (s : Setting) : Globals :=
  match s with
  | addr v => mkGlobals v (mattermostURL g) (verbose g) (logger g)
  | webhook_url v => mkGlobals (serverAddr g) v (verbose g) (logger g)
  | verbose_flag v => mkGlobals (serverAddr g) (mattermostURL g) v (logger g)
  end.

(** [flag.Parse] on the default flag set, which exits on error: status 0
    after [-h], status 2 on a line it rejects. *)
Definition flag_Parse (cmd : CommandLine) (g : Globals) : Z + Globals :=
  match cmd with
  | HelpRequested => inl 0%Z
  | Rejected => inl 2%Z
  | Settings settings => inr (foldl store g settings)
  end.

(** How [main] ends: the process exits, or [http.ListenAndServe] keeps
    serving [/alert] with [handleAlert]. *)
Inductive Outcome :=
| Exit (code : Z)
| Serving (g : Globals).

(** [buildString] is set by the linker; [http_ListenAndServe] gives the
    error the call returns with, or [None] when it keeps serving. *)
Definition main (buildString : string) (http_ListenAndServe : string → option string)
    (cmd : CommandLine) (g : Globals) : IO Outcome :=
  match flag_Parse cmd g with
  | inl code => mret (Exit code)
  | inr g =>
      if decide (mattermostURL g = "")
      then
        _ ← logger_Error
              "Mattermost webhook URL is not provided. Use the -webhook-url flag." [];
        mret (Exit 1)
      else
        _ ← logger_Info "Starting server"
              [("addr", serverAddr g); ("version", buildString)];
        match http_ListenAndServe (serverAddr g) with
        | Some err =>
            _ ← logger_Error "Error starting server" [("!BADKEY", err)];
            mret (Exit 1)
        | None => mret (Serving g)
        end
  end.


End Main.

(** For the formatter two payloads are alike when they have the same
    receiver and external URL and alerts that agree in all but the
    fingerprint. *)
Definition alikeAlerts (a b : Alert.t) : Prop :=
  Alert.Status a = Alert.Status b ∧
  Alert.Labels a = Alert.Labels b ∧
  Alert.Annotations a = Alert.Annotations b ∧
  Alert.StartsAt a = Alert.StartsAt b ∧
  Alert.EndsAt a = Alert.EndsAt b ∧
  Alert.GeneratorURL a = Alert.GeneratorURL b.

Definition alikePayloads (p q : Payload.t) : Prop :=
  Payload.Receiver p = Payload.Receiver q ∧
  Payload.ExternalURL p = Payload.ExternalURL q ∧
  Forall2 alikeAlerts (Payload.Alerts p) (Payload.Alerts q).

(** The payload of [twoLabelRequest] as another group would carry it:
    other group fields, another fingerprint. *)
Definition twoLabelPayloadRegrouped : Payload.t :=
  Payload.mk "r1" "resolved"
    [Alert.mk "firing" {[ "alertname" := "HighCPU"; "zone" := "a" ]} ∅
              "2024-01-01T00:00:00Z" "" "http://x" "def"]
    {[ "alertname" := "HighCPU" ]} ∅ ∅ "http://am" "5" "{}:{}" 3%Z.

(** One step of the loop of [decodeStruct] over the members of an
    object. *)
Definition storeMember {T} (fields : list (FieldDecoder T)) (acc : Result T)
    (kv : string * json) : Result T :=
  t ← acc;
  match lookupField fields kv.1 with
  | Some f => f.2 kv.2 t
  | None => mret t
  end.

(** * Properties *)

(** ** Strings and loops *)

Lemma observeStored_valid (ago : string) (alert : Alert.t) :
  validObserved alert (observeStored ago alert).
Proof. split; [unfold keyRangeOf|unfold rangeOf]; reflexivity. Qed.

Lemma string_app_cons (x : ascii) (a b : string) :
  String x a +:+ b = String x (a +:+ b).
Proof. reflexivity. Qed.

Lemma string_app_nil_l (a : string) : "" +:+ a = a.
Proof. reflexivity. Qed.

Lemma string_app_assoc (a b c : string) : (a +:+ b) +:+ c = a +:+ b +:+ c.
Proof.
  induction a as [|x a IH]; [done|]. by rewrite !string_app_cons, IH.
Qed.

Lemma string_app_nil_r (a : string) : a +:+ "" = a.
Proof.
  induction a as [|x a IH]; [done|]. by rewrite string_app_cons, IH.
Qed.

(** A loop that appends each element to a slice builds the list of the
    elements, in order. *)
Lemma foldl_append {A} (l acc : list A) :
  foldl (λ acc x, acc ++ [x]) acc l = acc ++ l.
Proof.
  revert acc. induction l as [|x l IH]; intros acc; simpl.
  - by rewrite app_nil_r.
  - rewrite IH. by rewrite <- app_assoc.
Qed.

Section FormatterLoops.
Context {text : GoText}.

(** The loop of [prepareMessage], started at iteration [i]. *)
Lemma prepareMessage_loop payload obs (alerts : list Alert.t) i acc :
  foldl (λ '(i, attachments) alert,
           (S i, attachments ++ [attachmentOf payload alert (obs i)]))
        (i, acc) alerts
  = ((i + length alerts)%nat,
     acc ++ imap (λ j alert, attachmentOf payload alert (obs (i + j)%nat)) alerts).
Proof.
  revert i acc. induction alerts as [|a alerts IH]; intros i acc; simpl.
  - by rewrite Nat.add_0_r, app_nil_r.
  - rewrite IH. f_equal; [lia|].
    rewrite <- app_assoc. simpl. rewrite Nat.add_0_r. do 2 f_equal.
    apply imap_ext. intros j x _. simpl. do 2 f_equal. lia.
Qed.

Lemma prepareMessage_attachments payload channel obs :
  MattermostMessage.Attachments (prepareMessage payload channel obs)
  = imap (λ i alert, attachmentOf payload alert (obs i)) (Payload.Alerts payload).
Proof.
  unfold prepareMessage. rewrite prepareMessage_loop. simpl. done.
Qed.
End FormatterLoops.

(** ** The color mapping *)

(** C4. [setColor] is total on status strings: [firing] gives the red code
    [#FF0000], [resolved] the green code [#008000], and every other
    string, the empty one included, the fallback [#F0F8FF]; every input
    has one of the three codes. *)
Theorem setColor_total :
  setColor "firing" = "#FF0000" ∧
  setColor "resolved" = "#008000" ∧
  setColor "" = "#F0F8FF" ∧
  (∀ status, status ≠ "firing" → status ≠ "resolved" → setColor status = "#F0F8FF") ∧
  (∀ status, setColor status ∈ [colorFiring; colorResolved; colorExpired]).
Proof.
  repeat split; try reflexivity.
  - intros status Hf Hr. unfold setColor.
    destruct (decide (status = "firing")); [done|].
    destruct (decide (status = "resolved")); done.
  - intros status. unfold setColor.
    repeat case_decide; set_solver.
Qed.

Lemma setColor_total_witness : setColor "suppressed" = "#F0F8FF".
Proof.
  destruct setColor_total as (_ & _ & _ & Hother & _).
  apply Hother; discriminate.
Defined.

(** ** One attachment per alert *)

(** C1. For a payload with N alerts, [prepareMessage] produces exactly N
    attachments, and the i-th attachment is the one built from the i-th
    alert: its color is [setColor] of that alert's status and its fields
    are [convertAlertToFields] of that alert.  N may be 0. *)
Theorem prepareMessage_one_attachment_per_alert {text : GoText}
    (payload : Payload.t) (channel : string) (obs : nat → Observed) :
  let attachments := MattermostMessage.Attachments (prepareMessage payload channel obs) in
  length attachments = length (Payload.Alerts payload) ∧
  (∀ i alert,
     Payload.Alerts payload !! i = Some alert →
     ∃ attachment,
       attachments !! i = Some attachment ∧
       Attachment.Color attachment = setColor (Alert.Status alert) ∧
       Attachment.Fields attachment =
         convertAlertToFields alert (Payload.ExternalURL payload)
                              (Payload.Receiver payload) (obs i)) ∧
  (∀ i attachment,
     attachments !! i = Some attachment →
     ∃ alert, Payload.Alerts payload !! i = Some alert ∧
              attachment = attachmentOf payload alert (obs i)).
Proof.
  cbv zeta. rewrite prepareMessage_attachments. split; [|split].
  - by rewrite length_imap.
  - intros i alert Hi. eexists. rewrite list_lookup_imap, Hi. simpl. eauto.
  - intros i attachment. rewrite list_lookup_imap.
    destruct (Payload.Alerts payload !! i) as [alert|] eqn:Hi; simpl; [|done].
    intros [= <-]. eauto.
Qed.

(** ** Sorting the annotation keys *)

Lemma strictlyBefore_of_le (a b : string) : String.le a b → a ≠ b → strictlyBefore a b.
Proof.
  unfold String.le, String.leb, strictlyBefore. intros Hle Hne.
  destruct (String.compare a b) eqn:Hc; [|done|done].
  by apply String.compare_eq_iff in Hc.
Qed.

Lemma StronglySorted_strict (l : list string) :
  StronglySorted String.le l → NoDup l → StronglySorted strictlyBefore l.
Proof.
  induction 1 as [|x l Hsorted IH Hall]; intros Hnd; [constructor|].
  apply NoDup_cons in Hnd as [Hx Hnd]. constructor; [by apply IH|].
  rewrite Forall_forall in Hall |- *. intros y Hy.
  apply strictlyBefore_of_le; [by apply Hall|]. intros ->. done.
Qed.

Lemma sort_Strings_sorted (l : list string) : StronglySorted String.le (sort_Strings l).
Proof. apply (StronglySorted_merge_sort _). Qed.

Lemma sort_Strings_perm (l : list string) : sort_Strings l ≡ₚ l.
Proof. apply merge_sort_Permutation. Qed.

(** Sorting does not see the order of its input. *)
Lemma sort_Strings_unique (l1 l2 : list string) :
  l1 ≡ₚ l2 → sort_Strings l1 = sort_Strings l2.
Proof.
  intros Hperm. apply (StronglySorted_unique String.le); try apply sort_Strings_sorted.
  by rewrite !sort_Strings_perm.
Qed.

Lemma sortedKeys_perm (m : gmap string string) : sortedKeys m ≡ₚ (map_to_list m).*1.
Proof. apply sort_Strings_perm. Qed.

Lemma sortedKeys_strict (m : gmap string string) :
  StronglySorted strictlyBefore (sortedKeys m).
Proof.
  apply StronglySorted_strict; [apply sort_Strings_sorted|].
  rewrite sortedKeys_perm. apply NoDup_fst_map_to_list.
Qed.

Lemma elem_of_sortedKeys (m : gmap string string) (k : string) :
  k ∈ sortedKeys m ↔ is_Some (m !! k).
Proof.
  rewrite sortedKeys_perm, list_elem_of_fmap. split.
  - intros [[k' v] [-> Hin]]. apply elem_of_map_to_list in Hin. by exists v.
  - intros [v Hv]. exists (k, v). split; [done|]. by apply elem_of_map_to_list.
Qed.

(** ** The text of the two fields *)

Section FieldText.
Context {text : GoText}.

Lemma appendLine_lineOf msg k v : appendLine msg k v = msg +:+ lineOf k v.
Proof. reflexivity. Qed.

Lemma foldl_appendLine {A} (k : A → string) (v : A → string) (l : list A) msg :
  foldl (λ msg x, appendLine msg (k x) (v x)) msg l
  = msg +:+ concatText ((λ x, lineOf (k x) (v x)) <$> l).
Proof.
  revert msg. induction l as [|x l IH]; intros msg; simpl.
  - by rewrite string_app_nil_r.
  - rewrite IH, appendLine_lineOf. by rewrite string_app_assoc.
Qed.

(** The two fields, with the loops carried out. *)
Lemma convertAlertToFields_eq alert externalURL receiver o :
  keyRangeOf (Alert.Annotations alert) (annotationsRange o) →
  convertAlertToFields alert externalURL receiver o =
    [ Field.mk
        (if decide (Alert.Status alert = "firing")
         then ":fire: " +:+ strings_ToUpper (Alert.Status alert) +:+ " :fire:"
         else strings_ToUpper (Alert.Status alert))
        (concatText (annotationLine alert <$> sortedKeys (Alert.Annotations alert))
           +:+ startedLine alert o
           +:+ (if decide (Alert.Status alert = "resolved") then endedLine alert o else "")
           +:+ trailer alert externalURL receiver)
        true;
      Field.mk "" (concatText ((λ kv, lineOf kv.1 kv.2) <$> labelsRange o)) true ].
Proof.
  intros Hrange. unfold convertAlertToFields. cbv zeta.
  rewrite foldl_append. simpl app.
  rewrite (sort_Strings_unique _ _ Hrange). fold (sortedKeys (Alert.Annotations alert)).
  rewrite (foldl_appendLine (λ k, k) (index (Alert.Annotations alert))).
  rewrite (foldl_appendLine fst snd).
  rewrite !string_app_nil_l.
  unfold annotationLine, startedLine, endedLine, trailer.
  destruct (decide (Alert.Status alert = "resolved"));
    by rewrite ?string_app_assoc, ?string_app_nil_l.
Qed.
End FieldText.

(** ** Annotation lines come in key order *)

(** C5. In the primary field of every alert the annotation lines come
    first, one per annotation, in strictly ascending byte-wise
    lexicographic order of the annotation keys, whatever order the [range]
    over the annotation map yields: the field is the same for any two
    orders. *)
Theorem annotation_lines_ascending {text : GoText}
    (alert : Alert.t) (externalURL receiver : string) (o : Observed) :
  keyRangeOf (Alert.Annotations alert) (annotationsRange o) →
  ∃ keys rest title,
    primaryField alert externalURL receiver o
      = Some (Field.mk title (concatText (annotationLine alert <$> keys) +:+ rest) true) ∧
    rest = startedLine alert o
             +:+ (if decide (Alert.Status alert = "resolved") then endedLine alert o else "")
             +:+ trailer alert externalURL receiver ∧
    StronglySorted strictlyBefore keys ∧
    (∀ k, k ∈ keys ↔ is_Some (Alert.Annotations alert !! k)) ∧
    (∀ o',
       keyRangeOf (Alert.Annotations alert) (annotationsRange o') →
       sinceStarted o' = sinceStarted o → sinceEnded o' = sinceEnded o →
       primaryField alert externalURL receiver o'
         = primaryField alert externalURL receiver o).
Proof.
  intros Hrange.
  exists (sortedKeys (Alert.Annotations alert)). eexists. eexists.
  unfold primaryField. rewrite (convertAlertToFields_eq _ _ _ _ Hrange).
  split; [reflexivity|]. split; [reflexivity|].
  split; [apply sortedKeys_strict|]. split; [apply elem_of_sortedKeys|].
  intros o' Hrange' Hs He. rewrite (convertAlertToFields_eq _ _ _ _ Hrange').
  unfold startedLine, endedLine. by rewrite Hs, He.
Qed.

(** ** Lines of a text *)

Lemma endsLine_app (b : bool) (x y : string) :
  endsLine b (x +:+ y) = endsLine (endsLine b x) y.
Proof.
  revert b. induction x as [|c x IH]; intros b; [done|].
  rewrite string_app_cons. simpl. apply IH.
Qed.

Lemma concatText_cons (a : string) (l : list string) :
  concatText (a :: l) = a +:+ concatText l.
Proof. reflexivity. Qed.

Lemma endsLine_lineOf {text : GoText} (b : bool) (k v : string) : endsLine b (lineOf k v) = true.
Proof. unfold lineOf. by rewrite !endsLine_app. Qed.

Lemma endsLine_concat_lines {text : GoText} {A} (f g : A → string) (l : list A) :
  endsLine true (concatText ((λ x, lineOf (f x) (g x)) <$> l)) = true.
Proof.
  assert (Hgen : ∀ b, b = true →
            endsLine b (concatText ((λ x, lineOf (f x) (g x)) <$> l)) = true).
  { induction l as [|x l IH]; intros b Hb; [done|].
    rewrite fmap_cons, concatText_cons, endsLine_app. apply IH, endsLine_lineOf. }
  by apply Hgen.
Qed.

Lemma hasLineFrom_unfold (b : bool) (p s : string) :
  hasLineFrom b p s
  = (b && String.prefix p s)
    || match s with
       | "" => false
       | String c rest => hasLineFrom (bool_decide (c = "010"%char)) p rest
       end.
Proof. by destruct s. Qed.

(** A text that begins with [p] right after a line end has a line that
    begins with [p]. *)
Lemma hasLineFrom_intro (b : bool) (p pre rest : string) :
  endsLine b pre = true → String.prefix p rest = true →
  hasLineFrom b p (pre +:+ rest) = true.
Proof.
  revert b. induction pre as [|c pre IH]; intros b Hb Hp.
  - simpl in Hb. subst b. rewrite string_app_nil_l.
    by rewrite hasLineFrom_unfold, Hp.
  - rewrite string_app_cons, hasLineFrom_unfold. rewrite (IH _ Hb Hp). apply orb_true_r.
Qed.

Lemma prefix_app_self (p rest : string) : String.prefix p (p +:+ rest) = true.
Proof.
  induction p as [|c p IH]; [by destruct rest|].
  rewrite string_app_cons. simpl. by destruct (ascii_dec c c).
Qed.

Lemma singleLine_app (a b : string) :
  singleLine (a +:+ b) = singleLine a && singleLine b.
Proof.
  induction a as [|c a IH]; [done|].
  rewrite string_app_cons. simpl. rewrite IH. by rewrite andb_assoc.
Qed.

(** A single-line [p] that begins a text whose first line is [a] begins
    [a]. *)
Lemma prefix_first_line (p a rest : string) :
  singleLine p = true →
  String.prefix p (a +:+ nl +:+ rest) = String.prefix p a.
Proof.
  revert a. induction p as [|c p IH]; intros a Hp.
  - by destruct a.
  - simpl in Hp. apply andb_true_iff in Hp as [Hc Hp].
    apply negb_true_iff, bool_decide_eq_false in Hc.
    destruct a as [|x a].
    + simpl. by destruct (ascii_dec c "010").
    + rewrite string_app_cons. simpl. destruct (ascii_dec c x); [by apply IH|done].
Qed.

Lemma hasLineFrom_last_line (b : bool) (p a : string) :
  singleLine a = true → hasLineFrom b p a = b && String.prefix p a.
Proof.
  revert b. induction a as [|x a IH]; intros b Ha.
  - simpl. by rewrite orb_false_r.
  - simpl in Ha. apply andb_true_iff in Ha as [Hx Ha].
    apply negb_true_iff in Hx.
    rewrite hasLineFrom_unfold, Hx, (IH _ Ha). simpl. by rewrite orb_false_r.
Qed.

Lemma hasLineFrom_first_line (b : bool) (p a rest : string) :
  singleLine p = true → singleLine a = true →
  hasLineFrom b p (a +:+ nl +:+ rest) = (b && String.prefix p a) || hasLineFrom true p rest.
Proof.
  intros Hp. revert b. induction a as [|x a IH]; intros b Ha.
  - rewrite hasLineFrom_unfold. by rewrite (prefix_first_line p "" rest Hp).
  - simpl in Ha. apply andb_true_iff in Ha as [Hx Ha].
    apply negb_true_iff in Hx.
    rewrite hasLineFrom_unfold, (prefix_first_line p (String x a) rest Hp).
    rewrite string_app_cons, Hx, (IH _ Ha). done.
Qed.

(** ** The title and the lines of the primary field *)

(** A title that does not begin with [Ended at] does not make its line
    begin with [**Ended at:**] either. *)
Lemma prefix_Ended_title (t rest : string) :
  String.prefix "Ended at" t = false →
  String.prefix "Ended at:**" (t +:+ ":** " +:+ rest) = false.
Proof.
  do 8 (destruct t as [|? t]; [intros _; reflexivity|];
        rewrite string_app_cons; cbn [String.prefix];
        match goal with
        | |- context [ascii_dec ?a ?c] =>
            destruct (ascii_dec a c); [|intros _; reflexivity]
        end).
  by destruct t.
Qed.

Section PrimaryField.
Context {text : GoText}.

Lemma lineOf_then k v rest :
  lineOf k v +:+ rest = ("**" +:+ cases_Title k +:+ ":** " +:+ v) +:+ nl +:+ rest.
Proof. unfold lineOf. by rewrite !string_app_assoc. Qed.

Lemma startedLine_then alert o rest :
  startedLine alert o +:+ rest
  = ("**Started at:** " +:+ Alert.StartsAt alert +:+ " (" +:+ sinceStarted o +:+ " ago)")
      +:+ nl +:+ rest.
Proof. unfold startedLine. by rewrite !string_app_assoc. Qed.

(** Annotation lines of single-line texts whose titles do not begin with
    [Ended at] add no line that begins with [**Ended at:**]. *)
Lemma hasLine_Ended_annotations alert (keys : list string) (rest : string) :
  (∀ k, k ∈ keys →
     singleLine (cases_Title k) = true ∧
     singleLine (index (Alert.Annotations alert) k) = true ∧
     String.prefix "Ended at" (cases_Title k) = false) →
  hasLineFrom true "**Ended at:**" (concatText (annotationLine alert <$> keys) +:+ rest)
  = hasLineFrom true "**Ended at:**" rest.
Proof.
  induction keys as [|k keys IH]; intros Hkeys; [done|].
  rewrite fmap_cons, concatText_cons, string_app_assoc. unfold annotationLine at 1.
  rewrite lineOf_then.
  destruct (Hkeys k) as (Ht & Hv & Hp); [apply list_elem_of_here|].
  rewrite hasLineFrom_first_line; [|done|].
  - rewrite IH; [|intros; by apply Hkeys, list_elem_of_further].
    replace (String.prefix "**Ended at:**"
               ("**" +:+ cases_Title k +:+ ":** " +:+ index (Alert.Annotations alert) k))
      with false; [done|].
    symmetry. apply (prefix_Ended_title _ _ Hp).
  - rewrite !singleLine_app, Ht, Hv. done.
Qed.

Lemma plainTexts_keys alert externalURL receiver o :
  plainTexts alert externalURL receiver o →
  ∀ k, k ∈ sortedKeys (Alert.Annotations alert) →
    singleLine (cases_Title k) = true ∧
    singleLine (index (Alert.Annotations alert) k) = true ∧
    String.prefix "Ended at" (cases_Title k) = false.
Proof.
  intros [Hann _] k [v Hv]%elem_of_sortedKeys.
  unfold index. rewrite Hv. simpl. by apply (Hann k v).
Qed.

(** Without the Ended-at line, no line of the value begins with
    [**Ended at:**]. *)
Lemma hasLine_Ended_not_resolved alert externalURL receiver o :
  plainTexts alert externalURL receiver o →
  hasLine "**Ended at:**"
    (concatText (annotationLine alert <$> sortedKeys (Alert.Annotations alert))
       +:+ startedLine alert o +:+ "" +:+ trailer alert externalURL receiver) = false.
Proof.
  intros Hplain. unfold hasLine.
  rewrite hasLine_Ended_annotations by by eapply plainTexts_keys.
  destruct Hplain as (_ & Hs & Ho & Hg & He & Hr).
  rewrite string_app_nil_l, startedLine_then.
  rewrite hasLineFrom_first_line; [|done|].
  - rewrite hasLineFrom_last_line; [done|].
    unfold trailer. rewrite !singleLine_app, Hg, He, Hr. done.
  - rewrite !singleLine_app, Hs, Ho. done.
Qed.
End PrimaryField.

Section PrimaryFieldClaims.
Context {text : GoText}.

Lemma endsLine_startedLine alert o (pre : string) :
  endsLine true (pre +:+ startedLine alert o) = true.
Proof. unfold startedLine. by rewrite !endsLine_app. Qed.

Lemma hasLine_startedLine alert o (rest : string) :
  hasLine (startedLine alert o)
    (concatText (annotationLine alert <$> sortedKeys (Alert.Annotations alert))
       +:+ startedLine alert o +:+ rest) = true.
Proof.
  apply hasLineFrom_intro; [|apply prefix_app_self].
  apply (endsLine_concat_lines (λ k, k) (index (Alert.Annotations alert))).
Qed.

Lemma hasLine_endedLine alert o (p rest : string) :
  String.prefix p (endedLine alert o +:+ rest) = true →
  hasLine p
    (concatText (annotationLine alert <$> sortedKeys (Alert.Annotations alert))
       +:+ startedLine alert o +:+ endedLine alert o +:+ rest) = true.
Proof.
  intros Hp. rewrite <- string_app_assoc.
  apply hasLineFrom_intro; [apply endsLine_startedLine|done].
Qed.
End PrimaryFieldClaims.

(** C6, as stated, fails: the value of the primary field of a firing alert
    has a line that begins with [**Ended at:**] when an annotation value
    brings one in. *)
Lemma ended_line_without_resolved :
  Alert.Status injectedAlert ≠ "resolved" ∧
  keyRangeOf (Alert.Annotations injectedAlert)
             (annotationsRange (observeStored "0 seconds" injectedAlert)) ∧
  (Field.Value <$> primaryField (text:=asciiText) injectedAlert "http://am" "r1"
                     (observeStored "0 seconds" injectedAlert))
  = Some ("**Note:** disk full" +:+ nl +:+ "**Ended at:** never" +:+ nl
          +:+ "**Started at:** 2024-01-01T00:00:00Z (0 seconds ago)" +:+ nl
          +:+ "Generated by a [Prometheus Alert](http://x) and sent to the "
          +:+ "[Alertmanager](http://am) 'r1' receiver.") ∧
  (hasLine "**Ended at:**" <$>
     (Field.Value <$> primaryField (text:=asciiText) injectedAlert "http://am" "r1"
                        (observeStored "0 seconds" injectedAlert)))
  = Some true.
Proof.
  split; [discriminate|]. split; [unfold keyRangeOf; reflexivity|].
  split; vm_compute; reflexivity.
Qed.

(** C6, amended.  The title of the primary field is the upper-cased
    status, wrapped in [:fire:] exactly when the status is [firing].  Its
    value always has the Started-at line, and has the Ended-at line of the
    alert whenever the status is [resolved].  When the texts copied into
    the value are single lines and no annotation key is rendered with
    [Ended at] in front, a line of the value begins with [**Ended at:**]
    if and only if the status is [resolved]. *)
Theorem primary_field_title_and_ended_line {text : GoText}
    (alert : Alert.t) (externalURL receiver : string) (o : Observed) :
  keyRangeOf (Alert.Annotations alert) (annotationsRange o) →
  ∃ title value,
    primaryField alert externalURL receiver o = Some (Field.mk title value true) ∧
    (Alert.Status alert = "firing" →
       title = ":fire: " +:+ strings_ToUpper (Alert.Status alert) +:+ " :fire:") ∧
    (Alert.Status alert ≠ "firing" → title = strings_ToUpper (Alert.Status alert)) ∧
    hasLine (startedLine alert o) value = true ∧
    (Alert.Status alert = "resolved" → hasLine (endedLine alert o) value = true) ∧
    (plainTexts alert externalURL receiver o →
       (hasLine "**Ended at:**" value = true ↔ Alert.Status alert = "resolved")).
Proof.
  intros Hrange. do 2 eexists.
  unfold primaryField. rewrite (convertAlertToFields_eq _ _ _ _ Hrange).
  split; [reflexivity|]. cbn [Field.Title Field.Value].
  split; [intros Hf; by rewrite decide_True|].
  split; [intros Hf; by rewrite decide_False|].
  split; [apply hasLine_startedLine|].
  split.
  - intros Hr. rewrite (decide_True _ _ Hr). apply hasLine_endedLine, prefix_app_self.
  - intros Hplain. destruct (decide (Alert.Status alert = "resolved")) as [Hr|Hr].
    + split; [done|]. intros _. by apply hasLine_endedLine.
    + rewrite hasLine_Ended_not_resolved by done. split; [done|]. intros ?; done.
Qed.

Lemma primary_field_title_and_ended_line_witness :
  keyRangeOf (Alert.Annotations resolvedAlert)
             (annotationsRange (observeStored "0 seconds" resolvedAlert)) ∧
  plainTexts (text:=asciiText) resolvedAlert "http://am" "r1"
             (observeStored "0 seconds" resolvedAlert) ∧
  ∃ title value,
    primaryField (text:=asciiText) resolvedAlert "http://am" "r1"
                 (observeStored "0 seconds" resolvedAlert)
      = Some (Field.mk title value true) ∧
    (Alert.Status resolvedAlert = "firing" →
       title = ":fire: " +:+ asciiToUpper (Alert.Status resolvedAlert) +:+ " :fire:") ∧
    (Alert.Status resolvedAlert ≠ "firing" →
       title = asciiToUpper (Alert.Status resolvedAlert)) ∧
    hasLine (startedLine resolvedAlert
               (observeStored "0 seconds" resolvedAlert)) value = true ∧
    (Alert.Status resolvedAlert = "resolved" →
       hasLine (endedLine resolvedAlert
                  (observeStored "0 seconds" resolvedAlert)) value = true) ∧
    (plainTexts (text:=asciiText) resolvedAlert "http://am" "r1"
                (observeStored "0 seconds" resolvedAlert) →
       (hasLine "**Ended at:**" value = true ↔ Alert.Status resolvedAlert = "resolved")).
Proof.
  split; [unfold keyRangeOf; reflexivity|]. split.
  - split; [|by vm_compute]. apply (bool_decide_unpack _). by vm_compute.
  - apply (primary_field_title_and_ended_line (text:=asciiText)).
    unfold keyRangeOf. reflexivity.
Defined.

(** ** Formatting twice *)

Section Determinism.
Context {text : GoText}.

Lemma prepareMessage_eq payload channel obs :
  prepareMessage payload channel obs
  = {| MattermostMessage.Text := "";
       MattermostMessage.Username := "alertmatter";
       MattermostMessage.IconEmoji := ":bell:";
       MattermostMessage.Attachments :=
         imap (λ i alert, attachmentOf payload alert (obs i)) (Payload.Alerts payload);
       MattermostMessage.Channel := channel |}.
Proof. unfold prepareMessage. by rewrite prepareMessage_loop. Qed.

(** The fields of an alert depend on the run only through the order of
    the labels and the elapsed-time texts. *)
Lemma convertAlertToFields_observed alert externalURL receiver o1 o2 :
  keyRangeOf (Alert.Annotations alert) (annotationsRange o1) →
  keyRangeOf (Alert.Annotations alert) (annotationsRange o2) →
  labelsRange o1 = labelsRange o2 →
  sinceStarted o1 = sinceStarted o2 →
  (Alert.Status alert = "resolved" → sinceEnded o1 = sinceEnded o2) →
  convertAlertToFields alert externalURL receiver o1
  = convertAlertToFields alert externalURL receiver o2.
Proof.
  intros H1 H2 Hl Hs He.
  rewrite (convertAlertToFields_eq _ _ _ _ H1), (convertAlertToFields_eq _ _ _ _ H2).
  unfold startedLine, endedLine. rewrite Hl, Hs.
  destruct (decide (Alert.Status alert = "resolved")) as [Hr|Hr]; [|done].
  by rewrite (He Hr).
Qed.
End Determinism.

(** C7, as stated, fails: two runs of [prepareMessage] on the same
    notification that range over the labels of an alert in different
    orders, or that measure different elapsed times, produce different
    JSON. *)
Lemma formatting_twice_differs :
  validObserved twoLabelAlert alertnameFirst ∧
  validObserved twoLabelAlert zoneFirst ∧
  validObserved twoLabelAlert alertnameFirstLater ∧
  Marshal (text:=asciiText) (prepareMessage (text:=asciiText) twoLabelPayload "ops" (λ _, alertnameFirst))
    ≠ Marshal (text:=asciiText) (prepareMessage (text:=asciiText) twoLabelPayload "ops" (λ _, zoneFirst)) ∧
  Marshal (text:=asciiText) (prepareMessage (text:=asciiText) twoLabelPayload "ops" (λ _, alertnameFirst))
    ≠ Marshal (text:=asciiText)
        (prepareMessage (text:=asciiText) twoLabelPayload "ops" (λ _, alertnameFirstLater)).
Proof.
  assert (Hkeys : map_to_list (Alert.Labels twoLabelAlert)
                  = [("alertname", "HighCPU"); ("zone", "a")]) by (by vm_compute).
  assert (Hnone : map_to_list (Alert.Annotations twoLabelAlert) = []) by (by vm_compute).
  repeat split.
  - unfold keyRangeOf. by rewrite Hnone.
  - unfold rangeOf. by rewrite Hkeys.
  - unfold keyRangeOf. by rewrite Hnone.
  - unfold rangeOf. rewrite Hkeys. apply perm_swap.
  - unfold keyRangeOf. by rewrite Hnone.
  - unfold rangeOf. by rewrite Hkeys.
  - apply String.eqb_neq. by vm_compute.
  - apply String.eqb_neq. by vm_compute.
Qed.

(** C7, amended.  Two runs of the formatter on the same notification and
    channel that, for every alert, range over its labels in the same
    order and render the same elapsed-time texts (the Ended-at one only
    for a resolved alert) yield the same JSON text; the order in which the
    annotation maps are ranged over has no influence. *)
Theorem formatting_deterministic_up_to_observations {text : GoText}
    (payload : Payload.t) (channel : string) (obs1 obs2 : nat → Observed) :
  (∀ i alert,
     Payload.Alerts payload !! i = Some alert →
     keyRangeOf (Alert.Annotations alert) (annotationsRange (obs1 i)) ∧
     keyRangeOf (Alert.Annotations alert) (annotationsRange (obs2 i)) ∧
     labelsRange (obs1 i) = labelsRange (obs2 i) ∧
     sinceStarted (obs1 i) = sinceStarted (obs2 i) ∧
     (Alert.Status alert = "resolved" → sinceEnded (obs1 i) = sinceEnded (obs2 i))) →
  Marshal (prepareMessage payload channel obs1)
  = Marshal (prepareMessage payload channel obs2).
Proof.
  intros Hobs. rewrite !prepareMessage_eq. do 2 f_equal.
  apply imap_ext. intros i alert Hi.
  destruct (Hobs i alert Hi) as (H1 & H2 & Hl & Hs & He).
  unfold attachmentOf. f_equal. by apply convertAlertToFields_observed.
Qed.

(** The annotations of [resolvedAlert] ranged over in the two possible
    orders. *)
Lemma formatting_deterministic_up_to_observations_witness :
  let payload := Payload.mk "r1" "resolved" [resolvedAlert] ∅ ∅ ∅ "http://am" "4" "" 0%Z in
  let o1 := {| annotationsRange := ["summary"; "description"];
               labelsRange := [("alertname", "HighCPU")];
               sinceStarted := ""; sinceEnded := "" |} in
  let o2 := {| annotationsRange := ["description"; "summary"];
               labelsRange := [("alertname", "HighCPU")];
               sinceStarted := ""; sinceEnded := "" |} in
  Marshal (text:=asciiText) (prepareMessage (text:=asciiText) payload "ops" (λ _, o1))
  = Marshal (text:=asciiText) (prepareMessage (text:=asciiText) payload "ops" (λ _, o2)).
Proof.
  cbv zeta. apply (formatting_deterministic_up_to_observations (text:=asciiText)).
  intros [|i] alert; [|by destruct i]. intros [= <-].
  assert (Hkeys : (map_to_list (Alert.Annotations resolvedAlert)).*1
                  = ["summary"; "description"]) by (by vm_compute).
  unfold keyRangeOf. rewrite Hkeys. simpl.
  split; [reflexivity|]. split; [apply perm_swap|].
  split; [reflexivity|]. split; [reflexivity|]. intros _. reflexivity.
Defined.

(** ** The handler, case by case *)

Lemma Contains_unfold (s substr : string) :
  Contains s substr
  = String.prefix substr s
    || match s with
       | "" => false
       | String _ rest => Contains rest substr
       end.
Proof. by destruct s. Qed.

Lemma Contains_intro (pre s post : string) : Contains (pre +:+ s +:+ post) s = true.
Proof.
  induction pre as [|c pre IH].
  - by rewrite string_app_nil_l, Contains_unfold, prefix_app_self.
  - rewrite string_app_cons, Contains_unfold, IH. apply orb_true_r.
Qed.


Section HandlerCases.
Context {text : GoText}.
Variable http_Post : string → string → string → PostResult.
Variable mattermostURL : string.
Variable obs : nat → Observed.

Lemma sendToMattermost_eq mmMessage url :
  sendToMattermost http_Post mmMessage url =
    match http_Post url "application/json" (Marshal mmMessage) with
    | PostError err =>
        (Some err,
         [Post url "application/json" (Marshal mmMessage);
          Log LevelError "Error sending request to Mattermost" [("err", err)]])
    | PostResponse StatusCode Status =>
        (if decide (StatusCode = 200%Z) then None
         else Some ("received non-OK response from Mattermost: " +:+ Status),
         [Post url "application/json" (Marshal mmMessage)])
    end.
Proof.
  unfold sendToMattermost, mbind, IO_bind, mret, IO_ret, logger_Error, StatusOK. simpl.
  destruct (http_Post url "application/json" (Marshal mmMessage)) as [err|code status];
    simpl; [done|].
  destruct (decide (code = 200%Z)) as [->|Hne].
  - by rewrite decide_False by (intros Hc; by apply Hc).
  - by rewrite decide_True.
Qed.

Lemma handleAlert_not_POST r :
  Request.Method r ≠ "POST" →
  handleAlert http_Post mattermostURL obs r = (http_Error "Method Not Allowed" 405, []).
Proof. intros Hm. unfold handleAlert. by rewrite decide_True. Qed.

Lemma handleAlert_no_channel r :
  Request.Method r = "POST" →
  Query_Get (Request.Query r) "channel" = "" →
  handleAlert http_Post mattermostURL obs r = (http_Error "channel query parameter is required" 400, []).
Proof.
  intros Hm Hc. unfold handleAlert.
  rewrite decide_False by (intros Hne; by apply Hne). by rewrite decide_True.
Qed.

Lemma handleAlert_decode_error r err :
  Request.Method r = "POST" →
  Query_Get (Request.Query r) "channel" ≠ "" →
  Decode (Request.Body r) = inl err →
  handleAlert http_Post mattermostURL obs r = (http_Error err 400, []).
Proof.
  intros Hm Hc Hd. unfold handleAlert.
  rewrite decide_False by (intros Hne; by apply Hne).
  rewrite decide_False by done. by rewrite Hd.
Qed.

Lemma handleAlert_forward r payload :
  Request.Method r = "POST" →
  Query_Get (Request.Query r) "channel" ≠ "" →
  Decode (Request.Body r) = inr payload →
  let channel := Query_Get (Request.Query r) "channel" in
  let body := Marshal (prepareMessage payload channel obs) in
  let received := Log LevelInfo "Received alert notification" [("channel", channel)] in
  handleAlert http_Post mattermostURL obs r =
    match http_Post mattermostURL "application/json" body with
    | PostError err =>
        (http_Error err 500,
         [received; Post mattermostURL "application/json" body;
          Log LevelError "Error sending request to Mattermost" [("err", err)];
          Log LevelError "Failed to send to Mattermost" [("err", err)]])
    | PostResponse StatusCode Status =>
        if decide (StatusCode = 200%Z)
        then (Response.mk 200 "", [received; Post mattermostURL "application/json" body])
        else (http_Error ("received non-OK response from Mattermost: " +:+ Status) 500,
              [received; Post mattermostURL "application/json" body;
               Log LevelError "Failed to send to Mattermost"
                   [("err", "received non-OK response from Mattermost: " +:+ Status)]])
    end.
Proof.
  intros Hm Hc Hd. cbv zeta. unfold handleAlert.
  rewrite decide_False by (intros Hne; by apply Hne).
  rewrite decide_False by done. rewrite Hd.
  unfold mbind, IO_bind at 1 2. rewrite sendToMattermost_eq.
  destruct (http_Post _ _ _) as [err|code status]; [done|].
  by destruct (decide (code = 200%Z)).
Qed.

(** A handler run posts at most once. *)
Lemma handleAlert_posts_at_most_once r : (length (posts (handleAlert http_Post mattermostURL obs r)) ≤ 1)%nat.
Proof.
  destruct (decide (Request.Method r = "POST")) as [Hm|Hm];
    [|rewrite handleAlert_not_POST by done; simpl; lia].
  destruct (decide (Query_Get (Request.Query r) "channel" = "")) as [Hc|Hc];
    [rewrite handleAlert_no_channel by done; simpl; lia|].
  destruct (Decode (Request.Body r)) as [err|payload] eqn:Hd;
    [rewrite (handleAlert_decode_error _ err) by done; simpl; lia|].
  rewrite (handleAlert_forward _ payload Hm Hc Hd).
  destruct (http_Post _ _ _) as [err|code status]; [simpl; lia|].
  destruct (decide (code = 200%Z)); simpl; lia.
Qed.
End HandlerCases.

(** ** Forwarding *)

(** C2, as stated, fails: a destination that answers 204, a 2xx status,
    makes [sendToMattermost] return an error, and the handler responds
    500. *)
Lemma status_204_is_an_error :
  answers204 webhookURL "application/json"
             (Marshal (text:=asciiText)
                (prepareMessage (text:=asciiText) Payload.zero "ops" quietRun))
    = PostResponse 204 "204 No Content" ∧
  (200 ≤ 204 < 300)%Z ∧
  result (sendToMattermost (text:=asciiText) answers204
            (prepareMessage (text:=asciiText) Payload.zero "ops" quietRun) webhookURL)
    = Some "received non-OK response from Mattermost: 204 No Content" ∧
  result (handleAlert (text:=asciiText) answers204 webhookURL quietRun nullRequest)
    = http_Error "received non-OK response from Mattermost: 204 No Content" 500.
Proof. split; [reflexivity|]. split; [lia|]. split; reflexivity. Qed.

(** C2, amended.  [sendToMattermost] returns an error if and only if
    [http.Post] fails or the destination's status code is not 200 (a 2xx
    code other than 200 included).  When the destination answers the
    handler's post with a code other than 200, the handler responds 500
    with a body that contains the destination's status text; when it
    answers 200, forwarding succeeds and the handler responds 200. *)
Theorem sendToMattermost_error_iff_not_200 {text : GoText}
    (http_Post : string → string → string → PostResult) :
  (∀ mmMessage url,
     result (sendToMattermost http_Post mmMessage url) ≠ None ↔
     (∃ err, http_Post url "application/json" (Marshal mmMessage) = PostError err) ∨
     (∃ code status,
        http_Post url "application/json" (Marshal mmMessage) = PostResponse code status ∧
        code ≠ 200%Z)) ∧
  (∀ mattermostURL obs r payload code status,
     Request.Method r = "POST" →
     Query_Get (Request.Query r) "channel" ≠ "" →
     Decode (Request.Body r) = inr payload →
     http_Post mattermostURL "application/json"
       (Marshal (prepareMessage payload (Query_Get (Request.Query r) "channel") obs))
       = PostResponse code status →
     let response := result (handleAlert http_Post mattermostURL obs r) in
     (code ≠ 200%Z →
        response = http_Error ("received non-OK response from Mattermost: " +:+ status) 500 ∧
        Contains (Response.Body response) status = true) ∧
     (code = 200%Z → response = Response.mk 200 "")).
Proof.
  split.
  - intros mmMessage url. rewrite sendToMattermost_eq.
    destruct (http_Post url _ _) as [err|code status]; simpl.
    + split; [intros _; left; by exists err|done].
    + unfold result. simpl. destruct (decide (code = 200%Z)) as [->|Hne].
      * split; [done|]. intros [[err Herr]|(c & s & [= <- <-] & Hc)]; done.
      * split; [|done]. intros _. right. by exists code, status.
  - intros mattermostURL obs r payload code status Hm Hc Hd Hpost. cbv zeta.
    rewrite (handleAlert_forward _ _ _ _ payload Hm Hc Hd). cbv zeta. rewrite Hpost.
    destruct (decide (code = 200%Z)) as [->|Hne].
    + split; [done|]. intros _. reflexivity.
    + split; [|done]. intros _. split; [reflexivity|].
      change (Contains (("received non-OK response from Mattermost: " +:+ status) +:+ nl)
                       status = true).
      rewrite string_app_assoc. apply Contains_intro.
Qed.

Lemma sendToMattermost_error_iff_not_200_witness :
  result (handleAlert (text:=asciiText) answers200 webhookURL quietRun nullRequest)
    = Response.mk 200 "" ∧
  result (sendToMattermost (text:=asciiText) unreachable
            (prepareMessage (text:=asciiText) Payload.zero "ops" quietRun) webhookURL)
    ≠ None.
Proof.
  destruct (sendToMattermost_error_iff_not_200 (text:=asciiText) answers200) as [_ Hhandler].
  destruct (sendToMattermost_error_iff_not_200 (text:=asciiText) unreachable) as [Hsend _].
  split.
  - apply (Hhandler webhookURL quietRun nullRequest Payload.zero 200%Z "200 OK");
      reflexivity || discriminate.
  - apply Hsend. left. eexists. reflexivity.
Defined.

(** ** Rejected requests *)




(** ** Validation order *)



(** ** Valid requests *)



(** ** Bodies without fields *)

(** An object none of whose keys selects a field leaves the struct as it
    was. *)
Lemma decodeStruct_skips {T} (type : string) (fields : list (FieldDecoder T))
    (members : list (string * json)) (old : T) :
  (∀ kv, kv ∈ members → lookupField fields kv.1 = None) →
  decodeStruct type fields (JObject members) old = inr old.
Proof.
  intros Hskip. unfold decodeStruct.
  induction members as [|kv members IH] using rev_ind; [done|].
  rewrite foldl_app. simpl. rewrite IH by (intros; apply Hskip; set_solver).
  unfold mbind, Result_bind. rewrite Hskip by set_solver. done.
Qed.

(** C9.  A POST with a non-empty channel whose body is the JSON value
    [null], or a JSON object none of whose keys names a field of the
    payload, is not rejected: decoding gives the zero payload, the message
    with no attachments is posted to the destination, and when the
    destination answers 200 the handler responds 200. *)
Theorem null_or_fieldless_body_is_forwarded {text : GoText}
    (http_Post : string → string → string → PostResult) (mattermostURL : string)
    (obs : nat → Observed) (r : Request.t) :
  Request.Method r = "POST" →
  Query_Get (Request.Query r) "channel" ≠ "" →
  (Request.Body r = Value JNull ∨
   ∃ members, Request.Body r = Value (JObject members) ∧
              ∀ kv, kv ∈ members → lookupField payloadFields kv.1 = None) →
  let message :=
    MattermostMessage.mk "" "alertmatter" ":bell:" []
                         (Query_Get (Request.Query r) "channel") in
  Decode (Request.Body r) = inr Payload.zero ∧
  posts (handleAlert http_Post mattermostURL obs r)
    = [(mattermostURL, "application/json", Marshal message)] ∧
  (∀ status,
     http_Post mattermostURL "application/json" (Marshal message) = PostResponse 200 status →
     result (handleAlert http_Post mattermostURL obs r) = Response.mk 200 "").
Proof.
  intros Hm Hc Hbody. cbv zeta.
  assert (Hd : Decode (Request.Body r) = inr Payload.zero).
  { destruct Hbody as [->|(members & -> & Hskip)]; [done|].
    by apply decodeStruct_skips. }
  split; [exact Hd|].
  rewrite (handleAlert_forward _ _ _ _ Payload.zero Hm Hc Hd). cbv zeta.
  rewrite prepareMessage_eq. simpl imap. split.
  - destruct (http_Post _ _ _) as [err|code status]; [done|].
    by destruct (decide (code = 200%Z)).
  - intros status ->. done.
Qed.

Lemma null_or_fieldless_body_is_forwarded_witness :
  (Decode (Request.Body nullRequest) = inr Payload.zero ∧
   posts (handleAlert (text:=asciiText) answers200 webhookURL quietRun nullRequest)
     = [(webhookURL, "application/json",
         Marshal (text:=asciiText) (MattermostMessage.mk "" "alertmatter" ":bell:" [] "ops"))] ∧
   result (handleAlert (text:=asciiText) answers200 webhookURL quietRun nullRequest)
     = Response.mk 200 "") ∧
  (Decode (Request.Body fieldlessRequest) = inr Payload.zero ∧
   result (handleAlert (text:=asciiText) answers200 webhookURL quietRun fieldlessRequest)
     = Response.mk 200 "").
Proof.
  split.
  - destruct (null_or_fieldless_body_is_forwarded (text:=asciiText) answers200 webhookURL
                quietRun nullRequest) as (Hd & Hposts & Hok);
      [reflexivity|discriminate|by left|].
    split; [exact Hd|]. split; [exact Hposts|]. apply (Hok "200 OK"). reflexivity.
  - destruct (null_or_fieldless_body_is_forwarded (text:=asciiText) answers200 webhookURL
                quietRun fieldlessRequest) as (Hd & _ & Hok);
      [reflexivity|discriminate| |].
    + right. eexists. split; [reflexivity|].
      intros kv Hkv. apply list_elem_of_In in Hkv.
      destruct Hkv as [<-|[<-|[]]]; vm_compute; reflexivity.
    + split; [exact Hd|]. apply (Hok "200 OK"). reflexivity.
Defined.

(** ** The formatter on the example alerts *)

Lemma prepareMessage_one_attachment_per_alert_witness :
  ∃ attachment,
    MattermostMessage.Attachments
      (prepareMessage (text:=asciiText) twoLabelPayload "ops" (λ _, alertnameFirst)) !! 0%nat
      = Some attachment ∧
    Attachment.Color attachment = setColor (Alert.Status twoLabelAlert) ∧
    Attachment.Fields attachment
      = convertAlertToFields (text:=asciiText) twoLabelAlert "http://am" "r1" alertnameFirst.
Proof.
  destruct (prepareMessage_one_attachment_per_alert (text:=asciiText) twoLabelPayload "ops"
              (λ _, alertnameFirst)) as (_ & Hith & _).
  apply (Hith 0%nat twoLabelAlert). reflexivity.
Defined.

Lemma annotation_lines_ascending_witness :
  ∃ keys rest title,
    primaryField (text:=asciiText) resolvedAlert "http://am" "r1"
                 (observeStored "" resolvedAlert)
      = Some (Field.mk title
                (concatText (annotationLine (text:=asciiText) resolvedAlert <$> keys) +:+ rest)
                true) ∧
    rest = startedLine resolvedAlert (observeStored "" resolvedAlert)
             +:+ (if decide (Alert.Status resolvedAlert = "resolved")
                  then endedLine resolvedAlert (observeStored "" resolvedAlert) else "")
             +:+ trailer resolvedAlert "http://am" "r1" ∧
    StronglySorted strictlyBefore keys ∧
    (∀ k, k ∈ keys ↔ is_Some (Alert.Annotations resolvedAlert !! k)) ∧
    (∀ o',
       keyRangeOf (Alert.Annotations resolvedAlert) (annotationsRange o') →
       sinceStarted o' = sinceStarted (observeStored "" resolvedAlert) →
       sinceEnded o' = sinceEnded (observeStored "" resolvedAlert) →
       primaryField (text:=asciiText) resolvedAlert "http://am" "r1" o'
         = primaryField (text:=asciiText) resolvedAlert "http://am" "r1"
                        (observeStored "" resolvedAlert)).
Proof.
  apply (annotation_lines_ascending (text:=asciiText)).
  unfold keyRangeOf. reflexivity.
Defined.


(** The worked example: one red attachment, the fire title, the summary
    and Started-at lines in the primary field and the label line in the
    secondary one; the handler posts it once and answers 200. *)
Example highCPU_example :
  ∃ payload,
    Decode (Request.Body highCPURequest) = inr payload ∧
    MattermostMessage.Attachments (prepareMessage (text:=asciiText) payload "ops" highCPURun)
    = [ {| Attachment.Color := "#FF0000";
           Attachment.Text := "";
           Attachment.Title := "";
           Attachment.TitleLink := "";
           Attachment.Fields :=
             [ Field.mk ":fire: FIRING :fire:"
                 ("**Summary:** CPU high" +:+ nl
                  +:+ "**Started at:** 2024-01-01T00:00:00Z ( ago)" +:+ nl
                  +:+ "Generated by a [Prometheus Alert](http://x) and sent to the "
                  +:+ "[Alertmanager](http://am) 'r1' receiver.")
                 true;
               Field.mk "" ("**Alertname:** HighCPU" +:+ nl) true ] |} ] ∧
    length (posts (handleAlert (text:=asciiText) answers200 webhookURL highCPURun
                     highCPURequest)) = 1%nat ∧
    result (handleAlert (text:=asciiText) answers200 webhookURL highCPURun highCPURequest)
    = Response.mk 200 "".
Proof.
  eexists. split; [vm_compute; reflexivity|].
  split; [vm_compute; reflexivity|]. split; vm_compute; reflexivity.
Qed.

(** * Further properties of the handler *)

(** X1.  Every response of the handler has status 200, 400, 405 or 500.
    The status is 405 exactly when the request is not a POST, and 200
    exactly when the request is a POST with a non-empty channel whose body
    decodes and the destination answers the post with 200; the body of a
    200 response is empty. *)
Theorem handleAlert_status_codes {text : GoText}
    (http_Post : string → string → string → PostResult) (mattermostURL : string)
    (obs : nat → Observed) (r : Request.t) :
  let response := result (handleAlert http_Post mattermostURL obs r) in
  let channel := Query_Get (Request.Query r) "channel" in
  Response.StatusCode response ∈ [200; 400; 405; 500]%Z ∧
  (Response.StatusCode response = 405%Z ↔ Request.Method r ≠ "POST") ∧
  (Response.StatusCode response = 200%Z ↔
     Request.Method r = "POST" ∧ channel ≠ "" ∧
     ∃ payload status,
       Decode (Request.Body r) = inr payload ∧
       http_Post mattermostURL "application/json"
                 (Marshal (prepareMessage payload channel obs))
       = PostResponse 200 status) ∧
  (Response.StatusCode response = 200%Z → Response.Body response = "").
Proof.
  cbv zeta.
  destruct (decide (Request.Method r = "POST")) as [Hm|Hm].
  2:{ rewrite handleAlert_not_POST by done. simpl.
      split; [set_solver|]. split; [done|]. split; [|done].
      split; [done|]. intros [? _]. done. }
  destruct (decide (Query_Get (Request.Query r) "channel" = "")) as [Hc|Hc].
  { rewrite handleAlert_no_channel by done. simpl.
    split; [set_solver|]. split; [done|]. split; [|done].
    split; [done|]. intros (_ & ? & _). done. }
  destruct (Decode (Request.Body r)) as [err|payload] eqn:Hd.
  { rewrite (handleAlert_decode_error _ _ _ _ err) by done. simpl.
    split; [set_solver|]. split; [done|]. split; [|done].
    split; [done|]. intros (_ & _ & ? & ? & ? & _). done. }
  rewrite (handleAlert_forward _ _ _ _ payload Hm Hc Hd). cbv zeta.
  destruct (http_Post _ _ _) as [err|code status] eqn:Hpost; simpl.
  { split; [set_solver|]. split; [done|]. split; [|done].
    split; [done|]. intros (_ & _ & ? & ? & [= <-] & Hp). congruence. }
  destruct (decide (code = 200%Z)) as [->|Hne]; simpl.
  - split; [set_solver|]. split; [done|]. split; [|done].
    split; [|done]. intros _. split; [done|]. split; [done|]. by exists payload, status.
  - split; [set_solver|]. split; [done|]. split; [|done].
    split; [done|]. intros (_ & _ & ? & ? & [= <-] & Hp). congruence.
Qed.

Lemma handleAlert_status_codes_witness :
  Response.StatusCode
    (result (handleAlert (text:=asciiText) answers200 webhookURL quietRun nullRequest))
  = 200%Z.
Proof.
  destruct (handleAlert_status_codes (text:=asciiText) answers200 webhookURL quietRun
              nullRequest) as (_ & _ & [_ Hok] & _).
  apply Hok. split; [reflexivity|]. split; [discriminate|].
  exists Payload.zero, "200 OK". split; reflexivity.
Defined.



(** X3.  A request answered 400 or 405 leaves no event: nothing is logged
    and nothing is posted.  The only record the handler logs at level
    Info is the receipt, and it carries the channel and nothing of the
    payload. *)
Theorem rejected_requests_leave_no_event {text : GoText}
    (http_Post : string → string → string → PostResult) (mattermostURL : string)
    (obs : nat → Observed) (r : Request.t) :
  let run := handleAlert http_Post mattermostURL obs r in
  (Response.StatusCode (result run) = 400%Z ∨ Response.StatusCode (result run) = 405%Z →
     events run = []) ∧
  (∀ msg attrs,
     Log LevelInfo msg attrs ∈ events run →
     msg = "Received alert notification" ∧
     attrs = [("channel", Query_Get (Request.Query r) "channel")]).
Proof.
  cbv zeta.
  destruct (decide (Request.Method r = "POST")) as [Hm|Hm];
    [|rewrite handleAlert_not_POST by done; split; [done|set_solver]].
  destruct (decide (Query_Get (Request.Query r) "channel" = "")) as [Hc|Hc];
    [rewrite handleAlert_no_channel by done; split; [done|set_solver]|].
  destruct (Decode (Request.Body r)) as [err|payload] eqn:Hd;
    [rewrite (handleAlert_decode_error _ _ _ _ err) by done; split; [done|set_solver]|].
  rewrite (handleAlert_forward _ _ _ _ payload Hm Hc Hd). cbv zeta.
  destruct (http_Post _ _ _) as [err|code status]; simpl.
  - split; [intros [|]; done|]. intros msg attrs Hin.
    apply list_elem_of_In in Hin. simpl in Hin.
    destruct Hin as [[= <- <-]|[|[|[|[]]]]]; done.
  - destruct (decide (code = 200%Z)); simpl.
    + split; [intros [|]; done|]. intros msg attrs Hin.
      apply list_elem_of_In in Hin. simpl in Hin.
      destruct Hin as [[= <- <-]|[|[]]]; done.
    + split; [intros [|]; done|]. intros msg attrs Hin.
      apply list_elem_of_In in Hin. simpl in Hin.
      destruct Hin as [[= <- <-]|[|[|[]]]]; done.
Qed.

Lemma rejected_requests_leave_no_event_witness :
  events (handleAlert (text:=asciiText) answers200 webhookURL quietRun getWithoutChannel) = [].
Proof.
  destruct (rejected_requests_leave_no_event (text:=asciiText) answers200 webhookURL
              quietRun getWithoutChannel) as [Hnone _].
  apply Hnone. right. reflexivity.
Defined.

Lemma handleAlert_valid_posts {text : GoText}
    (http_Post : string → string → string → PostResult) (mattermostURL : string)
    (obs : nat → Observed) (r : Request.t) (payload : Payload.t) :
  Request.Method r = "POST" →
  Query_Get (Request.Query r) "channel" ≠ "" →
  Decode (Request.Body r) = inr payload →
  posts (handleAlert http_Post mattermostURL obs r)
  = [(mattermostURL, "application/json",
      Marshal (prepareMessage payload (Query_Get (Request.Query r) "channel") obs))].
Proof.
  intros Hm Hc Hd. rewrite (handleAlert_forward _ _ _ _ payload Hm Hc Hd). cbv zeta.
  destruct (http_Post _ _ _) as [err|code status]; [done|].
  by destruct (decide (code = 200%Z)).
Qed.



(** * Further properties of the formatter *)

Lemma imap_Forall2 {A B C} (R : A → B → Prop) (f : nat → A → C) (g : nat → B → C)
    (l1 : list A) (l2 : list B) :
  Forall2 R l1 l2 →
  (∀ i a b, R a b → f i a = g i b) →
  imap f l1 = imap g l2.
Proof.
  intros HR. revert f g. induction HR as [|a b l1 l2 Hab _ IH]; intros f g Hfg; [done|].
  simpl. f_equal; [by apply Hfg|]. apply IH. intros i a' b' Hab'. by apply Hfg.
Qed.

Lemma attachmentOf_alike {text : GoText} (p q : Payload.t) (a b : Alert.t) (o : Observed) :
  Payload.Receiver p = Payload.Receiver q →
  Payload.ExternalURL p = Payload.ExternalURL q →
  alikeAlerts a b →
  attachmentOf p a o = attachmentOf q b o.
Proof.
  intros Hr He (Hs & _ & Ha & Hst & Hen & Hg).
  unfold attachmentOf, convertAlertToFields. by rewrite Hr, He, Hs, Ha, Hst, Hen, Hg.
Qed.

(** X5.  The message depends on the payload only through its receiver,
    its external URL and, for each alert, the status, labels, annotations,
    start and end times and generator URL.  The group's status, group and
    common labels, common annotations, version, group key and count of
    truncated alerts, and the alerts' fingerprints, leave no trace in
    it. *)
Theorem prepareMessage_ignores_group_fields {text : GoText}
    (p q : Payload.t) (channel : string) (obs : nat → Observed) :
  alikePayloads p q →
  prepareMessage p channel obs = prepareMessage q channel obs.
Proof.
  intros (Hr & He & Halerts). rewrite !prepareMessage_eq. f_equal.
  apply (imap_Forall2 alikeAlerts _ _ _ _ Halerts).
  intros i a b Hab. by apply attachmentOf_alike.
Qed.

Lemma prepareMessage_ignores_group_fields_witness :
  prepareMessage (text:=asciiText) twoLabelPayload "ops" (λ _, alertnameFirst)
  = prepareMessage (text:=asciiText) twoLabelPayloadRegrouped "ops" (λ _, alertnameFirst).
Proof.
  apply (prepareMessage_ignores_group_fields (text:=asciiText)).
  split; [reflexivity|]. split; [reflexivity|].
  constructor; [|constructor].
  repeat split; reflexivity.
Defined.

(** X6.  Whatever the payload, the message has an empty text, and every
    attachment has an empty text, title and title link, one of the three
    color codes, and exactly two fields, both marked short, the second
    with an empty title. *)
Theorem attachments_have_the_same_shape {text : GoText}
    (payload : Payload.t) (channel : string) (obs : nat → Observed) :
  MattermostMessage.Text (prepareMessage payload channel obs) = "" ∧
  Forall (λ attachment,
            Attachment.Text attachment = "" ∧
            Attachment.Title attachment = "" ∧
            Attachment.TitleLink attachment = "" ∧
            Attachment.Color attachment ∈ [colorFiring; colorResolved; colorExpired] ∧
            ∃ primary secondary,
              Attachment.Fields attachment = [primary; secondary] ∧
              Field.Short primary = true ∧
              Field.Short secondary = true ∧
              Field.Title secondary = "")
         (MattermostMessage.Attachments (prepareMessage payload channel obs)).
Proof.
  rewrite prepareMessage_eq. split; [done|]. simpl.
  apply Forall_lookup. intros i attachment. rewrite list_lookup_imap.
  destruct (Payload.Alerts payload !! i) as [alert|]; [|done]. intros [= <-]. simpl.
  split; [done|]. split; [done|]. split; [done|]. split.
  - unfold setColor. repeat case_decide; set_solver.
  - unfold convertAlertToFields. cbv zeta. simpl app.
    do 2 eexists. split; [reflexivity|]. done.
Qed.

Lemma string_length_app (a b : string) :
  String.length (a +:+ b) = (String.length a + String.length b)%nat.
Proof.
  induction a as [|c a IH]; [done|]. rewrite string_app_cons. simpl. by rewrite IH.
Qed.

Lemma setColor_firing_iff (status : string) :
  setColor status = colorFiring ↔ status = "firing".
Proof. unfold setColor. repeat case_decide; split; done. Qed.

Lemma setColor_resolved_iff (status : string) :
  setColor status = colorResolved ↔ status = "resolved".
Proof.
  unfold setColor. destruct (decide (status = "firing")) as [->|Hf]; [done|].
  destruct (decide (status = "resolved")); split; done.
Qed.

(** X7.  An attachment is red exactly when the status of its alert is
    [firing], green exactly when it is [resolved], and red exactly when
    the title of its primary field is the upper-cased status between
    two [:fire:] marks: color and title never disagree. *)
Theorem red_exactly_with_fire_title {text : GoText}
    (alert : Alert.t) (externalURL receiver : string) (o : Observed) :
  ∃ primary secondary,
    convertAlertToFields alert externalURL receiver o = [primary; secondary] ∧
    (setColor (Alert.Status alert) = colorFiring ↔ Alert.Status alert = "firing") ∧
    (setColor (Alert.Status alert) = colorResolved ↔ Alert.Status alert = "resolved") ∧
    (Field.Title primary = ":fire: " +:+ strings_ToUpper (Alert.Status alert) +:+ " :fire:"
       ↔ setColor (Alert.Status alert) = colorFiring).
Proof.
  do 2 eexists. split; [unfold convertAlertToFields; cbv zeta; simpl app; reflexivity|].
  split; [apply setColor_firing_iff|]. split; [apply setColor_resolved_iff|].
  - rewrite setColor_firing_iff. cbn [Field.Title].
    destruct (decide (Alert.Status alert = "firing")) as [Hf|Hf]; [done|].
    split; [|done]. intros Heq. apply (f_equal String.length) in Heq.
    rewrite !string_length_app in Heq. simpl in Heq. lia.
Qed.

Lemma Contains_app_r (pre s substr : string) :
  Contains s substr = true → Contains (pre +:+ s) substr = true.
Proof.
  intros Hs. induction pre as [|c pre IH]; [done|].
  rewrite string_app_cons, Contains_unfold, IH. apply orb_true_r.
Qed.

Lemma Contains_concatText (parts : list string) (x : string) :
  x ∈ parts → Contains (concatText parts) x = true.
Proof.
  induction 1 as [x parts|x y parts _ IH].
  - rewrite concatText_cons. apply (Contains_intro "" x).
  - rewrite concatText_cons. by apply Contains_app_r.
Qed.

(** X8.  The secondary field has an empty title and one line per label:
    its value is the lines of the labels in the order the [range] over
    the label map yields them, so the line of every label of the alert is
    in it, and it is empty for an alert without labels. *)
Theorem secondary_field_lists_the_labels {text : GoText}
    (alert : Alert.t) (externalURL receiver : string) (o : Observed) :
  rangeOf (Alert.Labels alert) (labelsRange o) →
  ∃ primary secondary,
    convertAlertToFields alert externalURL receiver o = [primary; secondary] ∧
    Field.Title secondary = "" ∧
    Field.Value secondary = concatText ((λ kv, lineOf kv.1 kv.2) <$> labelsRange o) ∧
    length (labelsRange o) = size (Alert.Labels alert) ∧
    (∀ k v, Alert.Labels alert !! k = Some v →
            Contains (Field.Value secondary) (lineOf k v) = true) ∧
    (Alert.Labels alert = ∅ → Field.Value secondary = "").
Proof.
  intros Hrange. unfold rangeOf in Hrange. do 2 eexists.
  split; [unfold convertAlertToFields; cbv zeta; simpl app; reflexivity|].
  cbn [Field.Title Field.Value].
  rewrite (foldl_appendLine fst snd), string_app_nil_l.
  split; [done|]. split; [done|]. split; [|split].
  - by rewrite Hrange, length_map_to_list.
  - intros k v Hkv. apply Contains_concatText.
    apply (list_elem_of_fmap_2 (λ kv, lineOf kv.1 kv.2) _ (k, v)).
    rewrite Hrange. by apply elem_of_map_to_list.
  - intros Hempty. rewrite Hempty, map_to_list_empty in Hrange.
    apply Permutation_nil_r in Hrange. by rewrite Hrange.
Qed.

Lemma secondary_field_lists_the_labels_witness :
  ∃ primary secondary,
    convertAlertToFields (text:=asciiText) twoLabelAlert "http://am" "r1" zoneFirst
      = [primary; secondary] ∧
    Field.Title secondary = "" ∧
    Field.Value secondary
      = concatText ((λ kv, lineOf (text:=asciiText) kv.1 kv.2) <$> labelsRange zoneFirst) ∧
    length (labelsRange zoneFirst) = size (Alert.Labels twoLabelAlert) ∧
    (∀ k v, Alert.Labels twoLabelAlert !! k = Some v →
            Contains (Field.Value secondary) (lineOf (text:=asciiText) k v) = true) ∧
    (Alert.Labels twoLabelAlert = ∅ → Field.Value secondary = "").
Proof.
  apply (secondary_field_lists_the_labels (text:=asciiText)).
  unfold rangeOf.
  assert (Hkeys : map_to_list (Alert.Labels twoLabelAlert)
                  = [("alertname", "HighCPU"); ("zone", "a")]) by (vm_compute; reflexivity).
  rewrite Hkeys. apply perm_swap.
Defined.

(** * Further properties of decoding *)

(** Once a member has failed, the error stays. *)
Lemma foldl_Result_error {T X} (step : Result T → X → Result T) (e : string) (l : list X) :
  (∀ e x, step (inl e) x = inl e) → foldl step (inl e) l = inl e.
Proof.
  intros Hstep. induction l as [|x l IH]; [done|]. simpl. by rewrite Hstep.
Qed.

Lemma decodeStruct_members {T} (type : string) (fields : list (FieldDecoder T))
    (members : list (string * json)) (old : T) :
  decodeStruct type fields (JObject members) old
  = foldl (storeMember fields) (inr old) members.
Proof. reflexivity. Qed.

Lemma storeMember_error {T} (fields : list (FieldDecoder T)) (members : list (string * json))
    (e : string) :
  foldl (storeMember fields) (inl e) members = inl e.
Proof. by apply foldl_Result_error. Qed.

Lemma lookupField_elem {T} (fields : list (FieldDecoder T)) (key : string) f :
  lookupField fields key = Some f → f ∈ fields ∧ foldName f.1 = foldName key.
Proof.
  unfold lookupField. intros Hlookup.
  destruct (List.find (λ f, bool_decide (f.1 = key)) fields) as [f'|] eqn:Hexact.
  - injection Hlookup as <-. apply List.find_some in Hexact as [Hin Heq].
    apply bool_decide_eq_true in Heq. split; [by apply list_elem_of_In|by rewrite Heq].
  - apply List.find_some in Hlookup as [Hin Heq].
    apply bool_decide_eq_true in Heq. split; [by apply list_elem_of_In|done].
Qed.

(** Every member of the members holds while they are stored. *)
Lemma foldl_storeMember_invariant {T} (fields : list (FieldDecoder T)) (I : T → Prop)
    (members : list (string * json)) (old new : T) :
  (∀ kv f t t', kv ∈ members → lookupField fields kv.1 = Some f →
                I t → f.2 kv.2 t = inr t' → I t') →
  I old →
  foldl (storeMember fields) (inr old) members = inr new →
  I new.
Proof.
  revert old. induction members as [|kv members IH]; intros old Hstep Hold Hfold.
  - simpl in Hfold. by injection Hfold as <-.
  - cbn [foldl] in Hfold. unfold storeMember at 2 in Hfold.
    unfold mbind, Result_bind, mret, Result_ret in Hfold.
    destruct (lookupField fields kv.1) as [f|] eqn:Hlookup.
    + destruct (f.2 kv.2 old) as [e|t'] eqn:Hf.
      * by rewrite storeMember_error in Hfold.
      * apply (IH t'); [|by apply (Hstep kv f old); [apply list_elem_of_here|..]|done].
        intros kv' f' t1 t2 Hin. apply Hstep. by apply list_elem_of_further.
    + apply (IH old); [|done|done].
      intros kv' f' t1 t2 Hin. apply Hstep. by apply list_elem_of_further.
Qed.

(** X9.  A POST with a channel whose body is a JSON array, string, number
    or boolean is answered 400 with the type error of the decoder, and
    leaves no event: only an object or [null] can fill the payload. *)
Theorem non_object_body_is_rejected {text : GoText}
    (http_Post : string → string → string → PostResult) (mattermostURL : string)
    (obs : nat → Observed) (r : Request.t) (v : json) :
  Request.Method r = "POST" →
  Query_Get (Request.Query r) "channel" ≠ "" →
  Request.Body r = Value v →
  kindOf v ≠ "null" → kindOf v ≠ "object" →
  handleAlert http_Post mattermostURL obs r
  = (http_Error ("json: cannot unmarshal " +:+ kindOf v
                 +:+ " into Go value of type main.AlertmanagerPayload") 400, []).
Proof.
  intros Hm Hc Hbody Hnull Hobject.
  apply handleAlert_decode_error; [done..|]. rewrite Hbody.
  destruct v; done.
Qed.

Lemma non_object_body_is_rejected_witness :
  handleAlert (text:=asciiText) answers200 webhookURL quietRun
              (Request.mk "POST" [("channel", "ops")] (Value (JArray [])))
  = (http_Error "json: cannot unmarshal array into Go value of type main.AlertmanagerPayload"
                400, []).
Proof.
  apply (non_object_body_is_rejected (text:=asciiText) answers200 webhookURL quietRun
           (Request.mk "POST" [("channel", "ops")] (Value (JArray []))) (JArray []));
    reflexivity || discriminate.
Defined.

(** X10.  An object with a member [alerts] whose value is neither an
    array nor [null] does not decode, wherever the member stands and
    whatever the other members are; a POST with a channel and such a body
    is answered 400 and leaves no event. *)
Theorem mistyped_alerts_member_is_rejected {text : GoText}
    (http_Post : string → string → string → PostResult) (mattermostURL : string)
    (obs : nat → Observed) (r : Request.t)
    (before after : list (string * json)) (v : json) :
  Request.Method r = "POST" →
  Query_Get (Request.Query r) "channel" ≠ "" →
  Request.Body r = Value (JObject (before ++ ("alerts", v) :: after)) →
  kindOf v ≠ "null" → kindOf v ≠ "array" →
  ∃ err,
    Decode (Request.Body r) = inl err ∧
    handleAlert http_Post mattermostURL obs r = (http_Error err 400, []).
Proof.
  intros Hm Hc Hbody Hnull Harray.
  assert (∃ err, Decode (Request.Body r) = inl err) as [err Herr].
  { rewrite Hbody. unfold Decode. rewrite decodeStruct_members, foldl_app. cbn [foldl].
    destruct (foldl (storeMember payloadFields) (inr Payload.zero) before) as [e|t].
    - exists e. apply (storeMember_error payloadFields after e).
    - destruct v; try done;
        eexists; (etrans; [|apply storeMember_error]); reflexivity. }
  exists err. split; [done|]. by apply handleAlert_decode_error.
Qed.

Lemma mistyped_alerts_member_is_rejected_witness :
  ∃ err,
    handleAlert (text:=asciiText) answers200 webhookURL quietRun
      (Request.mk "POST" [("channel", "ops")]
         (Value (JObject [("receiver", JString "r1"); ("alerts", JObject []);
                          ("status", JString "firing")])))
    = (http_Error err 400, []).
Proof.
  destruct (mistyped_alerts_member_is_rejected (text:=asciiText) answers200 webhookURL
              quietRun
              (Request.mk "POST" [("channel", "ops")]
                 (Value (JObject [("receiver", JString "r1"); ("alerts", JObject []);
                                  ("status", JString "firing")])))
              [("receiver", JString "r1")] [("status", JString "firing")] (JObject []))
    as (err & _ & Hrun); [reflexivity|discriminate|reflexivity|discriminate|discriminate|].
  by exists err.
Defined.

Lemma NoDup_fmap_eq {A B} (h : A → B) (l : list A) (x y : A) :
  NoDup (h <$> l) → x ∈ l → y ∈ l → h x = h y → x = y.
Proof.
  induction l as [|a l IH]; intros Hnd Hx Hy Hxy; [by apply elem_of_nil in Hx|].
  rewrite fmap_cons in Hnd. apply NoDup_cons in Hnd as [Ha Hnd].
  apply elem_of_cons in Hx as [->|Hx]; apply elem_of_cons in Hy as [->|Hy].
  - done.
  - destruct Ha. rewrite Hxy. by apply list_elem_of_fmap_2.
  - destruct Ha. rewrite <- Hxy. by apply list_elem_of_fmap_2.
  - by apply IH.
Qed.

(** Among fields whose tags differ even up to case, an object key that
    equals a tag up to case selects the field of that tag. *)
Lemma lookupField_fold {T} (fields : list (FieldDecoder T)) (key : string) f :
  NoDup ((λ g, foldName g.1) <$> fields) →
  f ∈ fields → foldName key = foldName f.1 →
  lookupField fields key = Some f.
Proof.
  intros Hnd Hf Hfold.
  destruct (lookupField fields key) as [g|] eqn:Hlookup.
  - apply lookupField_elem in Hlookup as [Hg Hgk]. f_equal.
    apply (NoDup_fmap_eq (λ g, foldName g.1) fields); [done..|]. simpl. congruence.
  - unfold lookupField in Hlookup.
    destruct (List.find (λ g, bool_decide (g.1 = key)) fields); [done|].
    apply list_elem_of_In in Hf.
    pose proof (List.find_none _ _ Hlookup f Hf) as Hnot.
    apply bool_decide_eq_false in Hnot. by destruct Hnot.
Qed.

Lemma payloadFields_tags_differ : NoDup ((λ g, foldName g.1) <$> payloadFields).
Proof. apply (bool_decide_unpack _). by vm_compute. Qed.

Lemma lookupField_payload_fold (key : string) f :
  f ∈ payloadFields → foldName key = foldName f.1 →
  lookupField payloadFields key = Some f.
Proof. apply lookupField_fold, payloadFields_tags_differ. Qed.

(** X11.  Object keys are matched with the tags of the payload without
    regard to case: a key that equals a tag up to the case of its ASCII
    letters (and the long s and the Kelvin sign, which fold to S and K)
    selects the field of that tag, so a body decodes the same with a key
    written as the tag or in any other case. *)
Theorem payload_keys_match_without_case
    (key : string) (f : FieldDecoder Payload.t) (v : json)
    (before after : list (string * json)) :
  f ∈ payloadFields →
  foldName key = foldName f.1 →
  lookupField payloadFields key = Some f ∧
  Decode (Value (JObject (before ++ (key, v) :: after)))
  = Decode (Value (JObject (before ++ (f.1, v) :: after))).
Proof.
  intros Hf Hfold.
  assert (Hkey : lookupField payloadFields key = Some f)
    by by apply lookupField_payload_fold.
  assert (Htag : lookupField payloadFields f.1 = Some f)
    by by apply lookupField_payload_fold.
  split; [exact Hkey|].
  unfold Decode. rewrite !decodeStruct_members, !foldl_app. cbn [foldl].
  f_equal. unfold storeMember. cbn [fst snd]. by rewrite Hkey, Htag.
Qed.

Lemma payload_keys_match_without_case_witness :
  Decode (Value (JObject [("Receiver", JString "r1"); ("ALERTS", JArray [JNull])]))
  = Decode (Value (JObject [("Receiver", JString "r1"); ("alerts", JArray [JNull])])).
Proof.
  destruct (payload_keys_match_without_case "ALERTS"
              ("alerts", λ v p,
                 x ← decodeAlerts "Go struct field AlertmanagerPayload.alerts" v
                       (Payload.Alerts p);
                 mret (Payload.mk (Payload.Receiver p) (Payload.Status p) x
                         (Payload.GroupLabels p) (Payload.CommonLabels p)
                         (Payload.CommonAnnotations p) (Payload.ExternalURL p)
                         (Payload.Version p) (Payload.GroupKey p)
                         (Payload.TruncatedAlerts p)))
              (JArray [JNull]) [("Receiver", JString "r1")] []) as [_ Hsame].
  - apply list_elem_of_In. cbn [In payloadFields]. right. right. left. reflexivity.
  - reflexivity.
  - exact Hsame.
Defined.

(** [null] stored into any field of the zero payload leaves the zero
    payload. *)
Lemma payloadFields_null_zero f :
  f ∈ payloadFields → f.2 JNull Payload.zero = inr Payload.zero.
Proof.
  intros Hf. apply list_elem_of_In in Hf. unfold payloadFields in Hf. cbn [In] in Hf.
  repeat (destruct Hf as [<-|Hf]); [..|destruct Hf]; reflexivity.
Qed.

(** X12.  An object all of whose members are [null] decodes into the zero
    payload, whatever its keys; a POST with a channel and such a body is
    forwarded as a message without attachments. *)
Theorem null_members_leave_the_zero_payload {text : GoText}
    (http_Post : string → string → string → PostResult) (mattermostURL : string)
    (obs : nat → Observed) (r : Request.t) (members : list (string * json)) :
  Request.Method r = "POST" →
  Query_Get (Request.Query r) "channel" ≠ "" →
  Request.Body r = Value (JObject members) →
  (∀ kv, kv ∈ members → kv.2 = JNull) →
  Decode (Request.Body r) = inr Payload.zero ∧
  posts (handleAlert http_Post mattermostURL obs r)
  = [(mattermostURL, "application/json",
      Marshal (MattermostMessage.mk "" "alertmatter" ":bell:" []
                 (Query_Get (Request.Query r) "channel")))].
Proof.
  intros Hm Hc Hbody Hnull.
  assert (Hd : Decode (Request.Body r) = inr Payload.zero).
  { rewrite Hbody. clear Hbody. unfold Decode. rewrite decodeStruct_members.
    induction members as [|kv members IH] using rev_ind; [done|].
    rewrite foldl_app, IH by (intros; apply Hnull; set_solver). cbn [foldl].
    unfold storeMember, mbind, Result_bind, mret, Result_ret.
    rewrite (Hnull kv) by set_solver.
    destruct (lookupField payloadFields kv.1) as [f|] eqn:Hlookup; [|done].
    apply lookupField_elem in Hlookup as [Hin _]. by apply payloadFields_null_zero. }
  split; [exact Hd|].
  rewrite (handleAlert_valid_posts _ _ _ _ Payload.zero Hm Hc Hd).
  by rewrite prepareMessage_eq.
Qed.

Lemma null_members_leave_the_zero_payload_witness :
  Decode (Value (JObject [("alerts", JNull); ("commonLabels", JNull); ("x", JNull)]))
  = inr Payload.zero.
Proof.
  destruct (null_members_leave_the_zero_payload (text:=asciiText) answers200 webhookURL
              quietRun
              (Request.mk "POST" [("channel", "ops")]
                 (Value (JObject [("alerts", JNull); ("commonLabels", JNull);
                                  ("x", JNull)])))
              [("alerts", JNull); ("commonLabels", JNull); ("x", JNull)]) as [Hd _];
    [reflexivity|discriminate|reflexivity| |exact Hd].
  intros kv Hin. apply list_elem_of_In in Hin.
  destruct Hin as [<-|[<-|[<-|[]]]]; reflexivity.
Defined.

Lemma decodeAlerts_length (target : string) (elems : list json) (old alerts : list Alert.t) :
  decodeAlerts target (JArray elems) old = inr alerts →
  length alerts = length elems.
Proof.
  unfold decodeAlerts.
  set (step := λ (acc : Result (list Alert.t)) (e : json),
                 alerts ← acc;
                 a ← decodeStruct "main.Alert" alertFields e Alert.zero;
                 mret (alerts ++ [a])).
  assert (Hgen : ∀ acc, foldl step (inr acc) elems = inr alerts →
                        length alerts = (length acc + length elems)%nat).
  { induction elems as [|e elems IH]; intros acc Hfold.
    - simpl in Hfold. injection Hfold as <-. simpl. lia.
    - cbn [foldl] in Hfold.
      assert (Hstep : step (inr acc) e
                      = match decodeStruct "main.Alert" alertFields e Alert.zero with
                        | inl err => inl err
                        | inr a => inr (acc ++ [a])
                        end) by reflexivity.
      rewrite Hstep in Hfold.
      destruct (decodeStruct "main.Alert" alertFields e Alert.zero) as [err|a].
      + rewrite foldl_Result_error in Hfold by done. done.
      + apply IH in Hfold. rewrite Hfold, length_app. simpl. lia. }
  intros Hfold. by apply Hgen in Hfold.
Qed.

(** The fields of the payload other than [alerts] leave the alerts as
    they are. *)
Lemma payloadFields_keep_alerts f (v : json) (t t' : Payload.t) :
  f ∈ payloadFields → foldName f.1 ≠ "ALERTS" →
  f.2 v t = inr t' → Payload.Alerts t' = Payload.Alerts t.
Proof.
  intros Hf Htag. apply list_elem_of_In in Hf. unfold payloadFields in Hf. cbn [In] in Hf.
  repeat (destruct Hf as [<-|Hf]); [..|destruct Hf];
    cbn [fst snd] in *; unfold mbind, Result_bind, mret, Result_ret;
    try (by destruct Htag);
    match goal with
    | |- match ?d with _ => _ end = _ → _ => destruct d; [discriminate|]
    end;
    intros [= <-]; reflexivity.
Qed.

(** X13.  When a body decodes and no member after its member
    [alerts] has a key equal to [alerts] up to case, the payload has one
    alert per element of that member's array, and the message has one
    attachment per element. *)
Theorem alerts_array_gives_one_attachment_per_element {text : GoText}
    (before after : list (string * json)) (elems : list json)
    (payload : Payload.t) (channel : string) (obs : nat → Observed) :
  (∀ kv, kv ∈ after → foldName kv.1 ≠ "ALERTS") →
  Decode (Value (JObject (before ++ ("alerts", JArray elems) :: after))) = inr payload →
  length (Payload.Alerts payload) = length elems ∧
  length (MattermostMessage.Attachments (prepareMessage payload channel obs))
  = length elems.
Proof.
  intros Hafter Hd.
  assert (Hlen : length (Payload.Alerts payload) = length elems).
  { unfold Decode in Hd. rewrite decodeStruct_members, foldl_app in Hd.
    destruct (foldl (storeMember payloadFields) (inr Payload.zero) before) as [e|t1].
    { rewrite storeMember_error in Hd. done. }
    cbn [foldl] in Hd.
    change (storeMember payloadFields (inr t1) ("alerts", JArray elems))
      with (x ← decodeAlerts "Go struct field AlertmanagerPayload.alerts" (JArray elems)
                  (Payload.Alerts t1);
            (mret (Payload.mk (Payload.Receiver t1) (Payload.Status t1) x
                     (Payload.GroupLabels t1) (Payload.CommonLabels t1)
                     (Payload.CommonAnnotations t1) (Payload.ExternalURL t1)
                     (Payload.Version t1) (Payload.GroupKey t1)
                     (Payload.TruncatedAlerts t1)) : Result Payload.t)) in Hd.
    destruct (decodeAlerts _ (JArray elems) (Payload.Alerts t1)) as [e|alerts] eqn:Halerts.
    { unfold mbind, Result_bind in Hd. rewrite storeMember_error in Hd. done. }
    apply decodeAlerts_length in Halerts. rewrite <- Halerts.
    unfold mbind, Result_bind, mret, Result_ret in Hd.
    apply (foldl_storeMember_invariant payloadFields
             (λ t, length (Payload.Alerts t) = length alerts) after _ payload) in Hd;
      [done| |done].
    intros kv f t t' Hin Hlookup Ht Hf.
    apply lookupField_elem in Hlookup as [Hfin Hfold].
    assert (Hne : foldName f.1 ≠ "ALERTS") by (rewrite Hfold; by apply Hafter).
    by rewrite (payloadFields_keep_alerts f kv.2 t t' Hfin Hne Hf). }
  split; [exact Hlen|]. rewrite prepareMessage_eq. cbn [MattermostMessage.Attachments].
  by rewrite length_imap.
Qed.

Lemma alerts_array_gives_one_attachment_per_element_witness :
  length (MattermostMessage.Attachments
            (prepareMessage (text:=asciiText) twoLabelPayload "ops" (λ _, alertnameFirst)))
  = 1%nat.
Proof.
  destruct (alerts_array_gives_one_attachment_per_element (text:=asciiText)
              [("receiver", JString "r1"); ("status", JString "firing")]
              [("externalURL", JString "http://am"); ("version", JString "4")]
              [JObject [("status", JString "firing");
                        ("labels", JObject [("alertname", JString "HighCPU");
                                            ("zone", JString "a")]);
                        ("startsAt", JString "2024-01-01T00:00:00Z");
                        ("generatorURL", JString "http://x");
                        ("fingerprint", JString "abc")]]
              twoLabelPayload "ops" (λ _, alertnameFirst)) as [_ Hlen].
  - intros kv Hin. apply list_elem_of_In in Hin.
    destruct Hin as [<-|[<-|[]]]; vm_compute; discriminate.
  - vm_compute. reflexivity.
  - exact Hlen.
Defined.

(** * Properties of start-up *)

Lemma store_logger (g : Main.Globals) (settings : list Main.Setting) :
  Main.logger (foldl Main.store g settings) = Main.logger g.
Proof.
  revert g. induction settings as [|s settings IH]; intros g; [done|].
  simpl. rewrite IH. by destruct s.
Qed.




(** X14.  The logger is built by [init], before the command line is
    read, from [verbose] as it is then: whatever the command line says,
    also with [-verbose], the level of the logger of the running server is
    Info, not the Debug level [initLogger] gives for a true [verbose]. *)
Theorem verbose_flag_does_not_reach_the_logger
    (buildString : string) (http_ListenAndServe : string → option string)
    (cmd : Main.CommandLine) (g : Main.Globals) :
  result (Main.main buildString http_ListenAndServe cmd Main.init) = Main.Serving g →
  Main.logger g = Main.LevelInfo ∧
  Main.logger g ≠ Main.initLogger true.
Proof.
  unfold Main.main, result. intros Hrun.
  destruct cmd as [| |settings]; [done..|]. simpl in Hrun.
  destruct (decide (Main.mattermostURL (foldl Main.store Main.init settings) = ""));
    [done|].
  simpl in Hrun.
  destruct (http_ListenAndServe _); [done|]. simpl in Hrun. injection Hrun as <-.
  rewrite store_logger. split; done.
Qed.

Lemma verbose_flag_does_not_reach_the_logger_witness :
  ∃ g,
    result (Main.main "v1.0.0" (λ _, None) (Main.Settings [Main.verbose_flag true]) Main.init)
      = Main.Serving g ∧
    Main.verbose g = true ∧
    Main.logger g = Main.LevelInfo.
Proof.
  eexists. split; [reflexivity|]. split; [reflexivity|].
  eapply (verbose_flag_does_not_reach_the_logger "v1.0.0" (λ _, None)
            (Main.Settings [Main.verbose_flag true])).
  reflexivity.
Defined.


